(** * BeamNG map generator front-end: selection, generation and progress logic

    A shallow embedding of the React front-end (src/App.tsx) and of the older
    plain-DOM front-end (tauri-app/src/main.ts), followed by the properties of
    the two-click selection, of the generation request and of the progress
    listener.

    React state cells become record fields, the setters returned by [useState]
    become functions on the record, and an event handler becomes a function
    from the state in which it runs to the next state together with the list
    of external effects it performed (alerts, backend commands).  The
    [async] function [generateTerrain] is cut at its single [await] into the
    part that runs when the button is pressed and the two continuations that
    run when the promise settles.  Handlers run one at a time, each against
    the state of the latest render. *)

From Stdlib Require Import ZArith List String Ascii Bool Lia.
From Stdlib Require Import Floats.SpecFloat.
Import ListNotations.
Open Scope string_scope.
#[local] Set Warnings "-register-all".

(** ** JavaScript values *)

Module JS.

(** A JavaScript [number] is an IEEE 754 binary64 value.  [spec_float] has a
    constructor for each class of value; the binary64 values are those with
    [valid_binary := SpecFloat.valid_binary 53 1024]. *)
Definition number : Type := spec_float.

Definition NaN : number := S754_nan.
Definition pos_infinity : number := S754_infinity false.
Definition neg_infinity : number := S754_infinity true.
Definition pos_zero : number := S754_zero false.
Definition neg_zero : number := S754_zero true.

(** The binary64 value of an integer literal such as [10] or [0]. *)
Definition number_of_Z (z : Z) : number := binary_normalize 53 1024 z 0 false.

Definition isNaN (x : number) : bool :=
  match x with S754_nan => true | _ => false end.

Definition is_pos_zero (x : number) : bool :=
  match x with S754_zero false => true | _ => false end.

Definition is_neg_zero (x : number) : bool :=
  match x with S754_zero true => true | _ => false end.

(** [x < y] and [x <= y] on numbers: false as soon as one side is NaN. *)
Definition lt (x y : number) : bool := SFltb x y.
Definition le (x y : number) : bool := SFleb x y.

(** [Math.min(...args)]: starts from +Infinity, returns NaN at the first NaN
    argument, prefers -0 to +0, and otherwise keeps the smaller value. *)
Fixpoint Math_min_from (lowest : number) (args : list number) : number :=
  match args with
  | [] => lowest
  | x :: rest =>
      if isNaN x then NaN
      else
        let lowest1 :=
          if is_neg_zero x && is_pos_zero lowest then neg_zero else lowest in
        let lowest2 := if lt x lowest1 then x else lowest1 in
        Math_min_from lowest2 rest
  end.

Definition Math_min (args : list number) : number :=
  Math_min_from pos_infinity args.

(** [Math.max(...args)]: the mirror image, from -Infinity, preferring +0. *)
Fixpoint Math_max_from (highest : number) (args : list number) : number :=
  match args with
  | [] => highest
  | x :: rest =>
      if isNaN x then NaN
      else
        let highest1 :=
          if is_pos_zero x && is_neg_zero highest then pos_zero else highest in
        let highest2 := if lt highest1 x then x else highest1 in
        Math_max_from highest2 rest
  end.

Definition Math_max (args : list number) : number :=
  Math_max_from neg_infinity args.

(** Runtime values that cross the IPC boundary or come out of [JSON.parse],
    plus [undefined], which a missing property evaluates to.  An object keeps
    its properties in insertion order. *)
Inductive value : Type :=
| JsUndefined
| JsNull
| JsBool (b : bool)
| JsNumber (x : number)
| JsString (s : string)
| JsArray (items : list value)
| JsObject (props : list (string * value)).

(** Truthiness, as used by [!x], [x && y], [x || y] and [if (x)]. *)
Definition ToBoolean (v : value) : bool :=
  match v with
  | JsUndefined | JsNull => false
  | JsBool b => b
  | JsNumber x =>
      match x with
      | S754_zero _ | S754_nan => false
      | _ => true
      end
  | JsString s => negb (s =? "")
  | JsArray _ | JsObject _ => true
  end.

Definition typeof_string (v : value) : bool :=
  match v with JsString _ => true | _ => false end.

(** [a || b] *)
Definition or (a b : value) : value := if ToBoolean a then a else b.

Fixpoint lookup (key : string) (props : list (string * value)) : value :=
  match props with
  | [] => JsUndefined
  | (k, v) :: rest => if k =? key then v else lookup key rest
  end.

(** [v.key] for a key that no prototype defines: a TypeError ([None]) on
    [null] and [undefined], the own property of an object, and [undefined]
    everywhere else. *)
Definition get (v : value) (key : string) : option value :=
  match v with
  | JsUndefined | JsNull => None
  | JsObject props => Some (lookup key props)
  | _ => Some JsUndefined
  end.

(** The parts of the language runtime that are taken as given: the decimal
    rendering of a number and the JSON parser ([None] when it throws a
    SyntaxError). *)
Class Runtime : Type := {
  Number_toString : number -> string;
  JSON_parse : string -> option value
}.

Definition join (sep : string) (parts : list string) : string :=
  match parts with
  | [] => ""
  | p :: rest => fold_left (fun acc q => acc ++ sep ++ q) rest p
  end.

(** Whether an object has an own property of that name. *)
Definition has_own (key : string) (props : list (string * value)) : bool :=
  existsb (fun kv => fst kv =? key) props.

(** The list of the results when every conversion succeeded. *)
Fixpoint all_some {A : Type} (xs : list (option A)) : option (list A) :=
  match xs with
  | [] => Some []
  | None :: _ => None
  | Some x :: rest =>
      match all_some rest with
      | Some ys => Some (x :: ys)
      | None => None
      end
  end.

(** [String(v)], which is also what a template literal applies to each hole
    and what [+] applies to the operand of a string: [None] when it throws a
    TypeError.  An object without an own [toString] inherits the one of
    [Object.prototype]; an own [toString] of a data value is not callable,
    [valueOf] then returns the object itself, and the conversion throws.  An
    array joins the conversions of its items, where [null] and [undefined]
    count as empty. *)
Fixpoint ToString `{Runtime} (v : value) : option string :=
  match v with
  | JsUndefined => Some "undefined"
  | JsNull => Some "null"
  | JsBool true => Some "true"
  | JsBool false => Some "false"
  | JsNumber x => Some (Number_toString x)
  | JsString s => Some s
  | JsArray items =>
      option_map (join ",")
        (all_some
           (map (fun item =>
                   match item with
                   | JsUndefined | JsNull => Some ""
                   | _ => ToString item
                   end) items))
  | JsObject props =>
      if has_own "toString" props then None else Some "[object Object]"
  end.

(** [s.includes(sub)] *)
Fixpoint includes (s sub : string) : bool :=
  prefix sub s ||
  match s with
  | EmptyString => false
  | String _ rest => includes rest sub
  end.

End JS.

Import JS.

(** ** Shared interfaces (App.tsx, lines 10-20) *)

Record BoundingBox : Type := {
  min_lat : number;
  min_lng : number;
  max_lat : number;
  max_lng : number
}.

Module GenerationProgress.
Record t : Type := { stage : string; progress : number }.

(** The shape the interface describes, read as a check on a runtime value:
    a string [stage] and a numeric [progress].  The listener of the React
    front-end performs no such check; statements use it to say which
    payloads are well formed. *)
Definition decode (v : value) : option t :=
  match get v "stage", get v "progress" with
  | Some (JsString st), Some (JsNumber p) =>
      Some {| stage := st; progress := p |}
  | _, _ => None
  end.
End GenerationProgress.

(** The coordinates Leaflet hands to a click handler as [e.latlng]. *)
Record LatLng : Type := { lat : number; lng : number }.

(** Leaflet's [LatLng] constructor throws on a NaN coordinate, so a click
    never delivers one. *)
Definition valid_LatLng (p : LatLng) : Prop :=
  isNaN (lat p) = false /\ isNaN (lng p) = false.

(** The invariant of a bounding box. *)
Definition ordered (b : BoundingBox) : Prop :=
  le (min_lat b) (max_lat b) = true /\ le (min_lng b) (max_lng b) = true.

(** ** The [MapSelector] component (App.tsx, lines 22-83) *)

Module MapSelector.

Record State : Type := {
  selectionStart : option (number * number);
  selectionEnd : option (number * number)
}.

Definition initial : State :=
  {| selectionStart := None; selectionEnd := None |}.

Definition setSelectionStart (v : option (number * number)) (st : State) :=
  {| selectionStart := v; selectionEnd := selectionEnd st |}.

Definition setSelectionEnd (v : option (number * number)) (st : State) :=
  {| selectionStart := selectionStart st; selectionEnd := v |}.

(** The [click] handler registered through [useMapEvents].  The second
    component of the result lists the boxes passed to [onBoundsChange],
    in call order. *)
Definition click (e : LatLng) (st : State) : State * list BoundingBox :=
  match selectionStart st with
  | None => (setSelectionStart (Some (lat e, lng e)) st, [])
  | Some start =>
      match selectionEnd st with
      | None =>
          let st' := setSelectionEnd (Some (lat e, lng e)) st in
          let bbox :=
            {| min_lat := Math_min [fst start; lat e];
               min_lng := Math_min [snd start; lng e];
               max_lat := Math_max [fst start; lat e];
               max_lng := Math_max [snd start; lng e] |} in
          (st', [bbox])
      | Some _ => (st, [])
      end
  end.

Definition resetSelection (st : State) : State :=
  setSelectionEnd None (setSelectionStart None st).

(** [selectionStart && selectionEnd]: guards the rectangle overlay and the
    reset button. *)
Definition resetButton_rendered (st : State) : bool :=
  match selectionStart st, selectionEnd st with
  | Some _, Some _ => true
  | _, _ => false
  end.

(** [selectionStart && !selectionEnd]: guards the second-click hint. *)
Definition hint_rendered (st : State) : bool :=
  match selectionStart st, selectionEnd st with
  | Some _, None => true
  | _, _ => false
  end.

(** The three-way reading of the two nullable cells.  The box of a
    completed selection is the element-wise min and max of the two stored
    corners.  A stored end without a stored start has no reading. *)
Inductive SelectionState : Type :=
| Empty
| FirstPointCaptured (point : LatLng)
| Complete (bbox : BoundingBox).

Definition bounds (p0 p1 : LatLng) : BoundingBox :=
  {| min_lat := Math_min [lat p0; lat p1];
     min_lng := Math_min [lng p0; lng p1];
     max_lat := Math_max [lat p0; lat p1];
     max_lng := Math_max [lng p0; lng p1] |}.

Definition point (c : number * number) : LatLng :=
  {| lat := fst c; lng := snd c |}.

Definition selection (st : State) : option SelectionState :=
  match selectionStart st, selectionEnd st with
  | None, None => Some Empty
  | Some c0, None => Some (FirstPointCaptured (point c0))
  | Some c0, Some c1 => Some (Complete (bounds (point c0) (point c1)))
  | None, Some _ => None
  end.

End MapSelector.

(** ** The [App] component (App.tsx, lines 85-252) *)

Module App.

(** The state cells of [App], with the cells of its [MapSelector] child.
    [progress] holds whatever the last event carried: the type parameter
    of [listen] is erased at run time. *)
Record State : Type := {
  mapSelector : MapSelector.State;
  bbox : option BoundingBox;
  outputPath : string;
  isGenerating : bool;
  progress : value;
  result : string
}.

Definition initial : State :=
  {| mapSelector := MapSelector.initial;
     bbox := None;
     outputPath := "";
     isGenerating := false;
     progress :=
       JsObject [("stage", JsString ""); ("progress", JsNumber (number_of_Z 0))];
     result := "" |}.

Definition setMapSelector (v : MapSelector.State) (s : State) : State :=
  {| mapSelector := v; bbox := bbox s; outputPath := outputPath s;
     isGenerating := isGenerating s; progress := progress s;
     result := result s |}.

Definition setBbox (v : option BoundingBox) (s : State) : State :=
  {| mapSelector := mapSelector s; bbox := v; outputPath := outputPath s;
     isGenerating := isGenerating s; progress := progress s;
     result := result s |}.

Definition setOutputPath (v : string) (s : State) : State :=
  {| mapSelector := mapSelector s; bbox := bbox s; outputPath := v;
     isGenerating := isGenerating s; progress := progress s;
     result := result s |}.

Definition setIsGenerating (v : bool) (s : State) : State :=
  {| mapSelector := mapSelector s; bbox := bbox s;
     outputPath := outputPath s; isGenerating := v;
     progress := progress s; result := result s |}.

Definition setProgress (v : value) (s : State) : State :=
  {| mapSelector := mapSelector s; bbox := bbox s;
     outputPath := outputPath s; isGenerating := isGenerating s;
     progress := v; result := result s |}.

Definition setResult (v : string) (s : State) : State :=
  {| mapSelector := mapSelector s; bbox := bbox s;
     outputPath := outputPath s; isGenerating := isGenerating s;
     progress := progress s; result := v |}.

(** What a handler does to the outside world. *)
Record GenerateArgs : Type := {
  args_bbox : BoundingBox;
  args_outputPath : string
}.

Inductive Effect : Type :=
| alert (message : string)
| invoke (cmd : string) (args : GenerateArgs).

Definition Handler : Type := State -> State * list Effect.

(** [<MapSelector onBoundsChange={setBbox} />]: a map click runs the
    selector's handler, and every box it emits goes through [setBbox]. *)
Definition onBoundsChange (bounds : BoundingBox) : State -> State :=
  setBbox (Some bounds).

Definition mapClick (e : LatLng) : Handler := fun s =>
  let '(sel, emitted) := MapSelector.click e (mapSelector s) in
  (fold_left (fun acc b => onBoundsChange b acc) emitted
     (setMapSelector sel s), []).

(** The reset button of the selector. *)
Definition resetSelection : Handler := fun s =>
  (setMapSelector (MapSelector.resetSelection (mapSelector s)) s, []).

(** The listener on ['generation-progress'] (lines 96-98). *)
Definition progressListener (payload : value) : Handler := fun s =>
  (setProgress payload s, []).

(** [selectOutputPath] after the dialog has answered with [selected]
    (lines 112-114). *)
Definition selectOutputPath (selected : value) : Handler := fun s =>
  match selected with
  | JsString path =>
      if ToBoolean selected then (setOutputPath path s, []) else (s, [])
  | _ => (s, [])
  end.

Definition precondition_message : string :=
  "Пожалуйста, выберите область на карте и путь для сохранения".

(** [generateTerrain] up to its [await] (lines 117-130). *)
Definition generateTerrain : Handler := fun s =>
  match bbox s, (outputPath s =? "") with
  | Some b, false =>
      let s1 := setIsGenerating true s in
      let s2 := setResult "" s1 in
      (s2, [invoke "generate_terrain"
              {| args_bbox := b; args_outputPath := outputPath s |}])
  | _, _ => (s, [alert precondition_message])
  end.

(** [generateTerrain] after the [await], when the promise is fulfilled
    with [response] (line 131, then the [finally] block). *)
Definition generateTerrain_resolved (response : string) : Handler := fun s =>
  let s1 := setResult response s in
  (setIsGenerating false s1, []).

(** [generateTerrain] after the [await], when the promise is rejected with
    [error] (line 133, then the [finally] block).  When the template literal
    throws, [setResult] is not reached; the [finally] block runs all the
    same and the exception leaves through the promise of the [async]
    function, which nothing awaits. *)
Definition generateTerrain_rejected `{Runtime} (error : value) : Handler :=
  fun s =>
    match ToString error with
    | Some text =>
        let s1 := setResult ("Ошибка: " ++ text) s in
        (setIsGenerating false s1, [])
    | None => (setIsGenerating false s, [])
    end.

(** *** Rendering *)

(** The [disabled] attribute of the generate button (line 173). *)
Definition generate_disabled (s : State) : bool :=
  negb (match bbox s with Some _ => true | None => false end)
  || (outputPath s =? "")
  || isGenerating s.

Inductive PanelClass : Type := error | success.

(** The result panel (lines 193-195): absent for an empty [result],
    otherwise classed by the marker. *)
Definition result_panel (s : State) : option (PanelClass * string) :=
  if negb (result s =? "") then
    Some (if includes (result s) "Ошибка" then error else success, result s)
  else None.

(** What React accepts as a child of an element: anything but a plain
    object, also inside an array. *)
Fixpoint valid_child (v : value) : bool :=
  match v with
  | JsObject _ => false
  | JsArray items => forallb valid_child items
  | _ => true
  end.

(** A stored progress that the progress block can show: reading its
    properties does not throw, [progress.progress] is a number (so that
    [toFixed] exists) and [progress.stage] is a valid child. *)
Definition renderable (v : value) : bool :=
  match get v "progress", get v "stage" with
  | Some (JsNumber _), Some stage => valid_child stage
  | _, _ => false
  end.

(** The progress block (lines 179-191) is rendered while a generation is in
    flight; it is the only part of the render that can throw. *)
Definition progress_text_throws (s : State) : bool :=
  isGenerating s && negb (renderable (progress s)).

(** The terminal outcome that the view shows. *)
Inductive GenerationOutcome : Type :=
| Success (message : string)
| Failure (message : string).

Definition outcome (s : State) : option GenerationOutcome :=
  match result_panel s with
  | Some (success, m) => Some (Success m)
  | Some (error, m) => Some (Failure m)
  | None => None
  end.

(** *** The event loop *)

(** The application together with the commands it has issued and that have
    not settled yet, and everything it has done to the outside so far. *)
Record System : Type := {
  view : State;
  outstanding : list GenerateArgs;
  trace : list Effect
}.

Definition boot : System :=
  {| view := initial; outstanding := []; trace := [] |}.

Inductive Event : Type :=
| MapClick (e : LatLng)
| ResetClick
| DirectoryChosen (selected : value)
| GenerateClick
| CommandResolved (response : string)
| CommandRejected (error : value)
| ProgressEvent (payload : value).

Definition issued (effects : list Effect) : list GenerateArgs :=
  flat_map (fun eff =>
              match eff with
              | invoke _ args => [args]
              | alert _ => []
              end) effects.

Definition perform (h : Handler) (sys : System) : System :=
  let '(s', effects) := h (view sys) in
  {| view := s';
     outstanding := outstanding sys ++ issued effects;
     trace := trace sys ++ effects |}.

(** One turn of the handlers of the mounted application.  A button that
    is not rendered, or is disabled, delivers no click; a settlement needs
    an outstanding command.  The render that follows a turn, and the unmount
    when it throws, are in [Mounted.step] below. *)
Definition step `{Runtime} (ev : Event) (sys : System) : System :=
  match ev with
  | MapClick e => perform (mapClick e) sys
  | ResetClick =>
      if MapSelector.resetButton_rendered (mapSelector (view sys))
      then perform resetSelection sys else sys
  | DirectoryChosen selected => perform (selectOutputPath selected) sys
  | GenerateClick =>
      if generate_disabled (view sys) then sys
      else perform generateTerrain sys
  | CommandResolved response =>
      match outstanding sys with
      | [] => sys
      | _ :: rest =>
          let sys' := perform (generateTerrain_resolved response) sys in
          {| view := view sys'; outstanding := rest; trace := trace sys' |}
      end
  | CommandRejected err =>
      match outstanding sys with
      | [] => sys
      | _ :: rest =>
          let sys' := perform (generateTerrain_rejected err) sys in
          {| view := view sys'; outstanding := rest; trace := trace sys' |}
      end
  | ProgressEvent payload => perform (progressListener payload) sys
  end.

Definition run `{Runtime} (events : list Event) (sys : System) : System :=
  fold_left (fun acc ev => step ev acc) events sys.

(** The clicks of a run carry coordinates that Leaflet can deliver. *)
Definition deliverable (ev : Event) : Prop :=
  match ev with
  | MapClick e => valid_LatLng e
  | _ => True
  end.

(** What every run from [boot] maintains: a stored first corner has no NaN
    coordinate, and the box held by the view is ordered. *)
Definition corner_ok (c : option (number * number)) : Prop :=
  match c with
  | Some (la, ln) => isNaN la = false /\ isNaN ln = false
  | None => True
  end.

Definition box_ok (b : option BoundingBox) : Prop :=
  match b with
  | Some box => ordered box
  | None => True
  end.

Definition sound (s : State) : Prop :=
  corner_ok (MapSelector.selectionStart (mapSelector s)) /\ box_ok (bbox s).

End App.

(** ** The plain-DOM front-end (tauri-app/src/main.ts) *)

Module Legacy.

(** The part of the document the progress listener touches: the text of
    the element with id [progressbar], when the page has one. *)
Record Dom : Type := { progressbar : option string }.

(** The body of the [try] block up to the lookup of the element (lines
    23-25): [None] when it throws.  [JSON.parse] converts its argument to a
    string first. *)
Definition read_progress `{Runtime} (payload : value)
  : option (value * value) :=
  match ToString payload with
  | None => None
  | Some source =>
      match JSON_parse source with
      | None => None
      | Some obj =>
          match get obj "progress", get obj "text" with
          | Some p0, Some t0 =>
              Some (or p0 (JsNumber (number_of_Z 0)), or t0 (JsString ""))
          | _, _ => None
          end
      end
  end.

(** The listener on ['bng_progress'] (lines 20-29); the [catch] block is
    empty, so a template literal that throws on line 27 leaves the text as
    it was. *)
Definition bng_progress_listener `{Runtime} (payload : value) (dom : Dom)
  : Dom :=
  match read_progress payload with
  | Some (p, text) =>
      match progressbar dom with
      | Some _ =>
          match ToString p, ToString text with
          | Some shown_p, Some shown_text =>
              {| progressbar := Some (shown_p ++ "% - " ++ shown_text) |}
          | _, _ => dom
          end
      | None => dom
      end
  | None => dom
  end.

End Legacy.

(** ** The page of the plain-DOM front-end (main.ts and map.ts) *)

Module LegacyPage.

(** Leaflet's [LatLngBounds]: the south-west and north-east corners, read
    back through [getSouth], [getWest], [getNorth] and [getEast]. *)
Record LatLngBounds : Type := { southWest : LatLng; northEast : LatLng }.

Definition getSouth (b : LatLngBounds) : number := lat (southWest b).
Definition getWest (b : LatLngBounds) : number := lng (southWest b).
Definition getNorth (b : LatLngBounds) : number := lat (northEast b).
Definition getEast (b : LatLngBounds) : number := lng (northEast b).

(** [JSON.stringify], taken as given: [None] when it returns [undefined]. *)
Class Json : Type := { JSON_stringify : value -> option string }.

(** The module-level variables of the two files and the parts of the
    document they write.  A drawn layer is identified with the bounds that
    its [getBounds] returns. *)
Record State : Type := {
  drawnItems : list LatLngBounds;
  lastBounds : option LatLngBounds;
  currentBBox : value;
  genBtn_disabled : bool;
  bboxDiv : string;
  document : Legacy.Dom
}.

Definition set_drawn (layers : list LatLngBounds)
    (last : option LatLngBounds) (s : State) : State :=
  {| drawnItems := layers; lastBounds := last;
     currentBBox := currentBBox s; genBtn_disabled := genBtn_disabled s;
     bboxDiv := bboxDiv s; document := document s |}.

Definition set_bbox (v : value) (text : string) (s : State) : State :=
  {| drawnItems := drawnItems s; lastBounds := lastBounds s;
     currentBBox := v; genBtn_disabled := genBtn_disabled s;
     bboxDiv := text; document := document s |}.

Definition set_disabled (v : bool) (s : State) : State :=
  {| drawnItems := drawnItems s; lastBounds := lastBounds s;
     currentBBox := currentBBox s; genBtn_disabled := v;
     bboxDiv := bboxDiv s; document := document s |}.

Definition set_document (v : Legacy.Dom) (s : State) : State :=
  {| drawnItems := drawnItems s; lastBounds := lastBounds s;
     currentBBox := currentBBox s; genBtn_disabled := genBtn_disabled s;
     bboxDiv := bboxDiv s; document := v |}.

Inductive Effect : Type :=
| alert (message : string)
| invoke (cmd : string) (args : value).

Definition Handler : Type := State -> State * list Effect.

(** The handler of [Draw.Event.CREATED] (map.ts, line 10). *)
Definition created (layer : LatLngBounds) : Handler := fun s =>
  (set_drawn [layer] (Some layer) s, []).

(** [window.setBBox] (main.ts, line 33). *)
Definition setBBox `{Json} (bbox : value) : Handler := fun s =>
  let text :=
    match JSON_stringify bbox with
    | Some t => t
    | None => "undefined"
    end in
  (set_bbox bbox text s, []).

(** The object literal built by the send button (map.ts, line 15). *)
Definition bbox_object (b : LatLngBounds) : value :=
  JsObject [("south", JsNumber (getSouth b)); ("west", JsNumber (getWest b));
            ("north", JsNumber (getNorth b)); ("east", JsNumber (getEast b))].

(** The click handler of the send button (map.ts, lines 13-18). *)
Definition send `{Json} : Handler := fun s =>
  match lastBounds s with
  | None => (s, [alert "Draw rectangle"])
  | Some b => setBBox (bbox_object b) s
  end.

(** [generate] up to its [await] (main.ts, lines 7-11).  Reading a property
    of [currentBBox] throws only on [null] and [undefined], which rejects
    the promise of the [async] function after the button was disabled. *)
Definition generate : Handler := fun s =>
  if negb (ToBoolean (currentBBox s)) then (s, [alert "Select area"])
  else
    let s1 := set_disabled true s in
    match get (currentBBox s) "south", get (currentBBox s) "west",
          get (currentBBox s) "north", get (currentBBox s) "east" with
    | Some so, Some we, Some no, Some ea =>
        (s1, [invoke "generate_map"
                (JsObject [("south", so); ("west", we);
                           ("north", no); ("east", ea)])])
    | _, _, _, _ => (s1, [])
    end.

(** [generate] after the [await], when the promise is fulfilled with [res]
    (lines 12-13).  When the concatenation on line 12 throws, line 13 is not
    reached. *)
Definition generate_resolved `{Runtime} (res : value) : Handler := fun s =>
  match ToString res with
  | Some text => (set_disabled false s, [alert ("Generated at " ++ text)])
  | None => (s, [])
  end.

(** [generate] when the promise is rejected: the [await] throws, nothing
    after it runs and nothing catches. *)
Definition generate_rejected (error : value) : Handler := fun s => (s, []).

(** The listener on ['bng_progress'], acting on the page. *)
Definition progress `{Runtime} (payload : value) : Handler := fun s =>
  (set_document (Legacy.bng_progress_listener payload (document s)) s, []).

(** The page with the commands that have not settled yet and everything
    done to the outside so far. *)
Record System : Type := {
  page : State;
  outstanding : list value;
  trace : list Effect
}.

Inductive Event : Type :=
| Created (layer : LatLngBounds)
| SendClick
| GenerateClick
| CommandResolved (res : value)
| CommandRejected (error : value)
| ProgressEvent (payload : value).

Definition issued (effects : list Effect) : list value :=
  flat_map (fun eff =>
              match eff with
              | invoke _ args => [args]
              | alert _ => []
              end) effects.

Definition perform (h : Handler) (sys : System) : System :=
  let '(s', effects) := h (page sys) in
  {| page := s';
     outstanding := outstanding sys ++ issued effects;
     trace := trace sys ++ effects |}.

Definition settle (h : Handler) (sys : System) : System :=
  match outstanding sys with
  | [] => sys
  | _ :: rest =>
      let sys' := perform h sys in
      {| page := page sys'; outstanding := rest; trace := trace sys' |}
  end.

(** One turn of the event loop; a disabled button delivers no click. *)
Definition step `{Runtime} `{Json} (ev : Event) (sys : System) : System :=
  match ev with
  | Created layer => perform (created layer) sys
  | SendClick => perform send sys
  | GenerateClick =>
      if genBtn_disabled (page sys) then sys else perform generate sys
  | CommandResolved res => settle (generate_resolved res) sys
  | CommandRejected err => settle (generate_rejected err) sys
  | ProgressEvent payload => perform (progress payload) sys
  end.

Definition run `{Runtime} `{Json} (events : list Event) (sys : System)
  : System :=
  fold_left (fun acc ev => step ev acc) events sys.

(** While a command is outstanding the button is disabled, and there is at
    most one such command. *)
Definition single_flight (sys : System) : Prop :=
  outstanding sys = []
  \/ (genBtn_disabled (page sys) = true /\ exists args, outstanding sys = [args]).

(** The button is disabled and nothing is left that could enable it. *)
Definition stuck (sys : System) : Prop :=
  genBtn_disabled (page sys) = true /\ outstanding sys = [].

Definition is_invoke (eff : Effect) : bool :=
  match eff with invoke _ _ => true | alert _ => false end.

End LegacyPage.

(** ** Runs of the React front-end *)

Module Session.

(** A series of clicks on the selector, with the boxes passed to
    [onBoundsChange] over the whole series. *)
Definition clicks (ps : list LatLng) (st : MapSelector.State)
  : MapSelector.State * list BoundingBox :=
  fold_left
    (fun acc p =>
       let '(st', emitted) := MapSelector.click p (fst acc) in
       (st', (snd acc ++ emitted)%list))
    ps (st, []).

(** The selector has a reading, and a completed selection is the box the
    view holds. *)
Definition selector_agrees (s : App.State) : Prop :=
  match MapSelector.selection (App.mapSelector s) with
  | Some (MapSelector.Complete b) => App.bbox s = Some b
  | Some _ => True
  | None => False
  end.

(** The in-flight flag tells whether a command is outstanding, there is at
    most one, and it was issued with a box and a path in place. *)
Definition single_flight (sys : App.System) : Prop :=
  (App.isGenerating (App.view sys) = false /\ App.outstanding sys = [])
  \/ (App.isGenerating (App.view sys) = true
      /\ (exists args, App.outstanding sys = [args])
      /\ App.bbox (App.view sys) <> None
      /\ App.outputPath (App.view sys) <> "").

(** What the backend may be sent: the one command, with an ordered box and
    a non-empty path.  An alert does not qualify. *)
Definition command_ok (eff : App.Effect) : Prop :=
  match eff with
  | App.invoke cmd args =>
      cmd = "generate_terrain"
      /\ ordered (App.args_bbox args)
      /\ App.args_outputPath args <> ""
  | App.alert _ => False
  end.

Definition is_progress (ev : App.Event) : bool :=
  match ev with App.ProgressEvent _ => true | _ => false end.

(** A run without its progress events. *)
Definition silence (events : list App.Event) : list App.Event :=
  filter (fun ev => negb (is_progress ev)) events.

(** Everything about the system except the stored progress. *)
Definition observe (sys : App.System)
  : App.State * list App.GenerateArgs * list App.Effect :=
  (App.setProgress JsUndefined (App.view sys), App.outstanding sys,
   App.trace sys).

(** The installation notes under the result (lines 196-210). *)
Definition mod_info_rendered (s : App.State) : bool :=
  negb (App.result s =? "") && negb (includes (App.result s) "Ошибка").

End Session.

(** ** The mounted application *)

Module Mounted.

(** The application as React keeps it: the system, and whether the
    component tree is still mounted.  There is no error boundary, so a
    render that throws unmounts the whole tree. *)
Record Live : Type := { system : App.System; mounted : bool }.

Definition boot : Live := {| system := App.boot; mounted := true |}.

(** What is on the screen. *)
Definition shown (live : Live) : option App.State :=
  if mounted live then Some (App.view (system live)) else None.

(** One turn: the handlers run ([App.step]), then React renders, and when
    the render throws the tree is unmounted.  After that there is no map,
    no button and no listener to deliver anything; a command that settles
    still runs its continuation, whose setters no longer have any effect. *)
Definition step `{Runtime} (ev : App.Event) (live : Live) : Live :=
  if mounted live then
    let sys' := App.step ev (system live) in
    {| system := sys';
       mounted := negb (App.progress_text_throws (App.view sys')) |}
  else
    match ev with
    | App.CommandResolved _ | App.CommandRejected _ =>
        {| system :=
             {| App.view := App.view (system live);
                App.outstanding := tl (App.outstanding (system live));
                App.trace := App.trace (system live) |};
           mounted := false |}
    | _ => live
    end.

Definition run `{Runtime} (events : list App.Event) (live : Live) : Live :=
  fold_left (fun acc ev => step ev acc) events live.

(** The progress events of a run carry payloads that the progress block can
    show. *)
Definition presentable (ev : App.Event) : Prop :=
  match ev with
  | App.ProgressEvent payload => App.renderable payload = true
  | _ => True
  end.

End Mounted.

(** ** Worked inputs *)

Module Examples.

(** A click at integer coordinates. *)
Definition at_ (la ln : Z) : LatLng :=
  {| lat := number_of_Z la; lng := number_of_Z ln |}.

(** A runtime that agrees with the real one on the inputs of the examples
    below: it renders the zeros and the non-finite numbers, and parses the
    two JSON texts [null] and [{}].  The examples render no other number
    (shown here as [#]) and the other texts they parse are not JSON. *)
Definition runtime : Runtime :=
  {| Number_toString := fun x =>
       match x with
       | S754_zero _ => "0"
       | S754_infinity false => "Infinity"
       | S754_infinity true => "-Infinity"
       | S754_nan => "NaN"
       | S754_finite _ _ _ => "#"
       end;
     JSON_parse := fun text =>
       if text =? "null" then Some JsNull
       else if text =? "{}" then Some (JsObject [])
       else None |}.

(** The view after clicking (10,20), then (30,5), then choosing a
    directory. *)
Definition selected : App.State :=
  let s1 := fst (App.mapClick (at_ 10 20) App.initial) in
  let s2 := fst (App.mapClick (at_ 30 5) s1) in
  fst (App.selectOutputPath (JsString "/home/user/maps") s2).

Definition selected_box : BoundingBox :=
  {| min_lat := number_of_Z 10; min_lng := number_of_Z 5;
     max_lat := number_of_Z 30; max_lng := number_of_Z 20 |}.

(** The same view while its generation command is outstanding. *)
Definition generating : App.System :=
  App.perform App.generateTerrain
    {| App.view := selected; App.outstanding := []; App.trace := [] |}.

Definition fetching_tiles : value :=
  JsObject [("stage", JsString "fetching tiles");
            ("progress", JsNumber (number_of_Z 42))].

End Examples.

Module Scenarios.

(** A stringifier that agrees with the real one on [undefined]; the
    scenarios show no other text. *)
Definition json : LegacyPage.Json :=
  {| LegacyPage.JSON_stringify := fun v =>
       match v with
       | JsUndefined => None
       | _ => Some "{}"
       end |}.

Definition rectangle : LegacyPage.LatLngBounds :=
  {| LegacyPage.southWest := Examples.at_ 10 5;
     LegacyPage.northEast := Examples.at_ 30 20 |}.

(** A freshly loaded page with a progress bar. *)
Definition loaded : LegacyPage.System :=
  {| LegacyPage.page :=
       {| LegacyPage.drawnItems := [];
          LegacyPage.lastBounds := None;
          LegacyPage.currentBBox := JsNull;
          LegacyPage.genBtn_disabled := false;
          LegacyPage.bboxDiv := "";
          LegacyPage.document := {| Legacy.progressbar := Some "" |} |};
     LegacyPage.outstanding := [];
     LegacyPage.trace := [] |}.

End Scenarios.

(** ** Proof automation *)

(** Closes a goal that holds by computation once the sign bits are known. *)
Ltac by_signs sa sb :=
  try (destruct sa, sb; reflexivity);
  try (destruct sa; reflexivity);
  try (destruct sb; reflexivity).

(** * Properties *)

(** ** Numbers *)

Section Numbers.

Implicit Types a b : number.

Lemma compare_cont_Eq_eq (m1 m2 : positive) :
  Pos.compare_cont Eq m1 m2 = Eq -> m1 = m2.
Proof. exact (Pos.compare_eq m1 m2). Qed.

Lemma compare_cont_Eq_opp (m1 m2 : positive) :
  Pos.compare_cont Eq m2 m1 = CompOpp (Pos.compare_cont Eq m1 m2).
Proof. exact (Pos.compare_antisym m1 m2). Qed.

(** Swapping the operands flips the comparison. *)
Lemma SFcompare_antisym a b :
  SFcompare b a = option_map CompOpp (SFcompare a b).
Proof.
  destruct a as [sa|sa| |sa ma ea], b as [sb|sb| |sb mb eb]; simpl;
    try reflexivity;
    try (destruct sa; reflexivity); try (destruct sb; reflexivity);
    try (destruct sa, sb; reflexivity).
  rewrite (Z.compare_antisym ea eb), (compare_cont_Eq_opp ma mb).
  destruct sa, sb; simpl; try reflexivity;
    destruct (ea ?= eb)%Z; simpl; try reflexivity;
    destruct (Pos.compare_cont Eq ma mb); reflexivity.
Qed.

(** Two numbers that are not NaN are comparable. *)
Lemma SFcompare_defined a b :
  isNaN a = false -> isNaN b = false -> exists c, SFcompare a b = Some c.
Proof.
  destruct a, b; simpl; intros; try discriminate; eauto.
Qed.

(** Numbers that compare equal are the same value, or are two zeros. *)
Lemma SFcompare_Eq a b :
  SFcompare a b = Some Eq ->
  a = b \/ (exists sa sb, a = S754_zero sa /\ b = S754_zero sb).
Proof.
  destruct a as [sa|sa| |sa ma ea], b as [sb|sb| |sb mb eb]; simpl;
    intros H; try discriminate.
  - right; eauto.
  - destruct sb; discriminate.
  - destruct sb; discriminate.
  - destruct sa; discriminate.
  - destruct sa, sb; try discriminate; left; reflexivity.
  - destruct sa; discriminate.
  - destruct sa; discriminate.
  - destruct sb; discriminate.
  - left.
    destruct sa, sb; try discriminate;
      destruct (ea ?= eb)%Z eqn:He; try discriminate;
      apply Z.compare_eq in He; subst eb.
    + destruct (Pos.compare_cont Eq ma mb) eqn:Hm; try discriminate.
      apply compare_cont_Eq_eq in Hm. subst; reflexivity.
    + injection H as H. apply compare_cont_Eq_eq in H. subst; reflexivity.
Qed.

(** [Math.min(a, b)] in terms of one comparison. *)
Lemma Math_min2 a b :
  isNaN a = false -> isNaN b = false ->
  Math_min [a; b] =
    match SFcompare b a with
    | Some Lt => b
    | Some Eq => if is_neg_zero b then b else a
    | _ => a
    end.
Proof.
  intros Ha Hb. unfold Math_min. simpl. rewrite Ha, Hb.
  assert (H1 : (if lt a pos_infinity then a else pos_infinity) = a).
  { destruct a as [sa|sa| |sa ma ea]; try discriminate; try reflexivity.
    destruct sa; reflexivity. }
  replace (is_neg_zero a && false) with false
    by (destruct (is_neg_zero a); reflexivity).
  rewrite H1. unfold lt, SFltb.
  destruct a as [sa|sa| |sa ma ea], b as [sb|sb| |sb mb eb];
    try discriminate; simpl; by_signs sa sb.
  destruct sa, sb; simpl; try reflexivity;
    destruct (eb ?= ea)%Z; simpl; try reflexivity;
    destruct (Pos.compare_cont Eq mb ma); reflexivity.
Qed.

(** [Math.max(a, b)] in terms of one comparison. *)
Lemma Math_max2 a b :
  isNaN a = false -> isNaN b = false ->
  Math_max [a; b] =
    match SFcompare b a with
    | Some Gt => b
    | Some Eq => if is_pos_zero b then b else a
    | _ => a
    end.
Proof.
  intros Ha Hb. unfold Math_max. simpl. rewrite Ha, Hb.
  assert (H1 : (if lt neg_infinity a then a else neg_infinity) = a).
  { destruct a as [sa|sa| |sa ma ea]; try discriminate; try reflexivity.
    destruct sa; reflexivity. }
  replace (is_pos_zero a && false) with false
    by (destruct (is_pos_zero a); reflexivity).
  rewrite H1. unfold lt, SFltb.
  destruct a as [sa|sa| |sa ma ea], b as [sb|sb| |sb mb eb];
    try discriminate; simpl; by_signs sa sb.
  rewrite (Z.compare_antisym eb ea), (compare_cont_Eq_opp mb ma).
  destruct sa, sb; simpl; try reflexivity;
    destruct (eb ?= ea)%Z; simpl; try reflexivity;
    destruct (Pos.compare_cont Eq mb ma); reflexivity.
Qed.

Lemma Math_min2_le_Math_max2 a b :
  isNaN a = false -> isNaN b = false ->
  le (Math_min [a; b]) (Math_max [a; b]) = true.
Proof.
  intros Ha Hb. rewrite (Math_min2 a b Ha Hb), (Math_max2 a b Ha Hb).
  unfold le, SFleb.
  destruct (SFcompare b a) as [[| |]|] eqn:Hc.
  - destruct (SFcompare_Eq _ _ Hc) as [->|(sa & sb & -> & ->)].
    + destruct (is_neg_zero a), (is_pos_zero a); rewrite Hc; reflexivity.
    + destruct sa, sb; reflexivity.
  - rewrite Hc; reflexivity.
  - rewrite (SFcompare_antisym b a), Hc. reflexivity.
  - destruct (SFcompare_defined b a Hb Ha) as [c Hc']. congruence.
Qed.

Lemma SFcompare_refl a : isNaN a = false -> SFcompare a a = Some Eq.
Proof.
  destruct a as [sa|sa| |sa ma ea]; simpl; intros Ha; try discriminate.
  - reflexivity.
  - destruct sa; reflexivity.
  - rewrite Z.compare_refl.
    change (Pos.compare_cont Eq ma ma) with (Pos.compare ma ma).
    rewrite Pos.compare_refl. destruct sa; reflexivity.
Qed.

(** [Math.min(a, b)] is one of its arguments and is below both; dually for
    [Math.max]. *)
Lemma Math_min2_choice a b :
  isNaN a = false -> isNaN b = false ->
  Math_min [a; b] = a \/ Math_min [a; b] = b.
Proof.
  intros Ha Hb. rewrite (Math_min2 a b Ha Hb).
  destruct (SFcompare b a) as [[| |]|]; auto.
  destruct (is_neg_zero b); auto.
Qed.

Lemma Math_min2_lower a b :
  isNaN a = false -> isNaN b = false ->
  le (Math_min [a; b]) a = true /\ le (Math_min [a; b]) b = true.
Proof.
  intros Ha Hb. rewrite (Math_min2 a b Ha Hb). unfold le, SFleb.
  pose proof (SFcompare_antisym b a) as Hab.
  destruct (SFcompare b a) as [[| |]|] eqn:Hc; simpl in Hab; cbv iota.
  - destruct (is_neg_zero b);
      rewrite ?Hc, ?Hab, ?(SFcompare_refl a Ha), ?(SFcompare_refl b Hb);
      auto.
  - rewrite Hc, (SFcompare_refl b Hb). auto.
  - rewrite Hab, (SFcompare_refl a Ha). auto.
  - destruct (SFcompare_defined b a Hb Ha) as [c Hc']. congruence.
Qed.

Lemma Math_max2_choice a b :
  isNaN a = false -> isNaN b = false ->
  Math_max [a; b] = a \/ Math_max [a; b] = b.
Proof.
  intros Ha Hb. rewrite (Math_max2 a b Ha Hb).
  destruct (SFcompare b a) as [[| |]|]; auto.
  destruct (is_pos_zero b); auto.
Qed.

Lemma Math_max2_upper a b :
  isNaN a = false -> isNaN b = false ->
  le a (Math_max [a; b]) = true /\ le b (Math_max [a; b]) = true.
Proof.
  intros Ha Hb. rewrite (Math_max2 a b Ha Hb). unfold le, SFleb.
  pose proof (SFcompare_antisym b a) as Hab.
  destruct (SFcompare b a) as [[| |]|] eqn:Hc; simpl in Hab; cbv iota.
  - destruct (is_pos_zero b);
      rewrite ?Hc, ?Hab, ?(SFcompare_refl a Ha), ?(SFcompare_refl b Hb);
      auto.
  - rewrite Hc, (SFcompare_refl a Ha). auto.
  - rewrite Hab, (SFcompare_refl b Hb). auto.
  - destruct (SFcompare_defined b a Hb Ha) as [c Hc']. congruence.
Qed.

(** The signed zeros and NaN behave as in the language. *)
Example Math_min_zeros :
  Math_min [pos_zero; neg_zero] = neg_zero
  /\ Math_min [neg_zero; pos_zero] = neg_zero
  /\ Math_max [neg_zero; pos_zero] = pos_zero
  /\ Math_max [pos_zero; neg_zero] = pos_zero.
Proof. repeat split. Qed.

Example Math_min_NaN :
  Math_min [NaN; number_of_Z 1] = NaN
  /\ Math_min [number_of_Z 1; NaN] = NaN
  /\ Math_max [number_of_Z 1; NaN] = NaN
  /\ le NaN NaN = false.
Proof. repeat split. Qed.

Example Math_min_integers :
  Math_min [number_of_Z 10; number_of_Z 30] = number_of_Z 10
  /\ Math_max [number_of_Z 20; number_of_Z 5] = number_of_Z 20
  /\ Math_min [number_of_Z (-3); number_of_Z 2] = number_of_Z (-3)
  /\ Math_min [] = pos_infinity
  /\ Math_max [] = neg_infinity.
Proof. repeat split. Qed.

Lemma Math_min_comm a b : Math_min [a; b] = Math_min [b; a].
Proof.
  destruct (isNaN a) eqn:Ha;
    [destruct a; try discriminate; destruct b; reflexivity|].
  destruct (isNaN b) eqn:Hb;
    [destruct b; try discriminate; destruct a; reflexivity|].
  rewrite (Math_min2 a b Ha Hb), (Math_min2 b a Hb Ha),
    (SFcompare_antisym b a).
  destruct (SFcompare b a) as [[| |]|] eqn:Hc; simpl; try reflexivity.
  - destruct (SFcompare_Eq _ _ Hc) as [->|(sa & sb & -> & ->)];
      [destruct (is_neg_zero a); reflexivity|].
    destruct sa, sb; reflexivity.
  - destruct (SFcompare_defined b a Hb Ha) as [c Hc']. congruence.
Qed.

Lemma Math_max_comm a b : Math_max [a; b] = Math_max [b; a].
Proof.
  destruct (isNaN a) eqn:Ha;
    [destruct a; try discriminate; destruct b; reflexivity|].
  destruct (isNaN b) eqn:Hb;
    [destruct b; try discriminate; destruct a; reflexivity|].
  rewrite (Math_max2 a b Ha Hb), (Math_max2 b a Hb Ha),
    (SFcompare_antisym b a).
  destruct (SFcompare b a) as [[| |]|] eqn:Hc; simpl; try reflexivity.
  - destruct (SFcompare_Eq _ _ Hc) as [->|(sa & sb & -> & ->)];
      [destruct (is_pos_zero a); reflexivity|].
    destruct sa, sb; reflexivity.
  - destruct (SFcompare_defined b a Hb Ha) as [c Hc']. congruence.
Qed.

End Numbers.

(** ** The two-click selection *)

Section Selection.

Import MapSelector.

Lemma point_eta (e : LatLng) : point (lat e, lng e) = e.
Proof. destruct e; reflexivity. Qed.

Lemma setMapSelector_same (s : App.State) :
  App.setMapSelector (App.mapSelector s) s = s.
Proof. destruct s; reflexivity. Qed.

Lemma selection_Empty (st : State) :
  selection st = Some Empty -> st = initial.
Proof.
  destruct st as [[c0|] [c1|]]; simpl; intros H; try discriminate.
  reflexivity.
Qed.

Lemma selection_Complete (st : State) (b : BoundingBox) :
  selection st = Some (Complete b) ->
  exists c0 c1, st = {| selectionStart := Some c0; selectionEnd := Some c1 |}.
Proof.
  destruct st as [[c0|] [c1|]]; simpl; intros H; try discriminate.
  eauto.
Qed.

(** The box of two clicks is ordered as soon as neither click has a NaN
    coordinate. *)
Lemma bounds_ordered (p0 p1 : LatLng) :
  valid_LatLng p0 -> valid_LatLng p1 -> ordered (bounds p0 p1).
Proof.
  intros [Hla0 Hln0] [Hla1 Hln1]. split; simpl.
  - apply Math_min2_le_Math_max2; assumption.
  - apply Math_min2_le_Math_max2; assumption.
Qed.

Lemma bounds_comm (p0 p1 : LatLng) : bounds p0 p1 = bounds p1 p0.
Proof.
  unfold bounds.
  rewrite (Math_min_comm (lat p0)), (Math_min_comm (lng p0)),
    (Math_max_comm (lat p0)), (Math_max_comm (lng p0)).
  reflexivity.
Qed.

(** Two clicks from the empty selection, at the level of the component. *)
Lemma click_click (p0 p1 : LatLng) :
  click p0 initial
  = ({| selectionStart := Some (lat p0, lng p0); selectionEnd := None |}, [])
  /\ click p1 (fst (click p0 initial))
     = ({| selectionStart := Some (lat p0, lng p0);
           selectionEnd := Some (lat p1, lng p1) |}, [bounds p0 p1]).
Proof. split; reflexivity. Qed.

(** C4.  From the empty selection, a first click at [p0] emits nothing and a
    second click at [p1] emits exactly one box, the element-wise minimum and
    maximum of the two points; the selection is then complete with that box
    and the view holds it.  Clicking (10,20) then (30,5) gives the box
    10, 5, 30, 20. *)
Theorem second_click_completes_selection
    (s : App.State) (p0 p1 : LatLng) :
  selection (App.mapSelector s) = Some Empty ->
  let st1 := fst (click p0 (App.mapSelector s)) in
  let s1 := fst (App.mapClick p0 s) in
  let s2 := fst (App.mapClick p1 s1) in
  snd (click p0 (App.mapSelector s)) = []
  /\ selection st1 = Some (FirstPointCaptured p0)
  /\ snd (click p1 st1) = [bounds p0 p1]
  /\ selection (fst (click p1 st1)) = Some (Complete (bounds p0 p1))
  /\ App.mapSelector s2 = fst (click p1 st1)
  /\ App.bbox s2 = Some (bounds p0 p1)
  /\ bounds (Examples.at_ 10 20) (Examples.at_ 30 5) = Examples.selected_box.
Proof.
  intros Hempty. apply selection_Empty in Hempty.
  destruct s as [sel b path gen prog res]. simpl in Hempty. subst sel.
  cbn -[bounds Math_min Math_max Examples.at_ Examples.selected_box].
  rewrite (point_eta p0), (point_eta p1).
  repeat split; vm_compute; reflexivity.
Qed.

Lemma second_click_completes_selection_witness :
  selection (App.mapSelector App.initial) = Some Empty
  /\ App.bbox
       (fst (App.mapClick (Examples.at_ 30 5)
               (fst (App.mapClick (Examples.at_ 10 20) App.initial))))
     = Some Examples.selected_box.
Proof.
  split; [reflexivity|].
  pose proof (second_click_completes_selection App.initial
                (Examples.at_ 10 20) (Examples.at_ 30 5) eq_refl) as H.
  cbv zeta in H.
  destruct H as (_ & _ & _ & _ & _ & Hbox & Hex).
  rewrite Hbox, Hex. reflexivity.
Defined.

End Selection.

(** ** Every box the view ever holds is ordered *)

Section Reachable.

Context `{Runtime}.
Import MapSelector.

Lemma sound_boot : App.sound (App.view App.boot).
Proof. split; exact I. Qed.

Lemma mapClick_sound (e : LatLng) (s : App.State) :
  valid_LatLng e -> App.sound s -> App.sound (fst (App.mapClick e s)).
Proof.
  intros He [Hc Hb].
  destruct s as [[[[la0 ln0]|] [c1|]] b path gen prog res];
    simpl in *; split; simpl; auto.
  destruct Hc as [Hla Hln], He as [Hela Heln].
  split; apply Math_min2_le_Math_max2; assumption.
Qed.

Lemma perform_view (h : App.Handler) (sys : App.System) :
  App.view (App.perform h sys) = fst (h (App.view sys)).
Proof. unfold App.perform. destruct (h (App.view sys)); reflexivity. Qed.

Lemma generateTerrain_rejected_frame (error : value) (s : App.State) :
  let s' := fst (App.generateTerrain_rejected error s) in
  snd (App.generateTerrain_rejected error s) = []
  /\ App.mapSelector s' = App.mapSelector s
  /\ App.bbox s' = App.bbox s
  /\ App.outputPath s' = App.outputPath s
  /\ App.progress s' = App.progress s
  /\ App.isGenerating s' = false.
Proof.
  unfold App.generateTerrain_rejected.
  destruct (ToString error); simpl; repeat split.
Qed.

Lemma step_sound (ev : App.Event) (sys : App.System) :
  App.deliverable ev ->
  App.sound (App.view sys) -> App.sound (App.view (App.step ev sys)).
Proof.
  intros Hev Hs. destruct ev; simpl.
  - rewrite perform_view. apply mapClick_sound; assumption.
  - destruct (resetButton_rendered _); [|assumption].
    rewrite perform_view. destruct Hs as [_ Hb]. split; [exact I|exact Hb].
  - rewrite perform_view. unfold App.selectOutputPath.
    destruct selected; try assumption.
    destruct (ToBoolean _); assumption.
  - destruct (App.generate_disabled _); [assumption|].
    rewrite perform_view. unfold App.generateTerrain.
    destruct (App.bbox (App.view sys)) eqn:Hb; [|assumption].
    destruct (App.outputPath (App.view sys) =? ""); [assumption|].
    destruct Hs as [Hc Hbox]. split; simpl; [exact Hc|].
    rewrite Hb in *. exact Hbox.
  - destruct (App.outstanding sys); [assumption|]. exact Hs.
  - destruct (App.outstanding sys); [assumption|].
    cbn [App.view]. rewrite perform_view.
    destruct (generateTerrain_rejected_frame error (App.view sys))
      as (_ & Hsel & Hb & _).
    unfold App.sound. rewrite Hsel, Hb. exact Hs.
  - exact Hs.
Qed.

Lemma run_sound (events : list App.Event) :
  Forall App.deliverable events ->
  forall sys, App.sound (App.view sys) ->
              App.sound (App.view (App.run events sys)).
Proof.
  induction 1 as [|ev events Hev _ IH]; intros sys Hs; simpl.
  - exact Hs.
  - apply IH. apply step_sound; assumption.
Qed.

(** C5.  For two clicks without NaN coordinates the box built on the second
    click has [min_lat <= max_lat] and [min_lng <= max_lng], and clicking
    the two points in the other order emits the same box.  The box is built
    nowhere else: after any sequence of events from start-up, a box held by
    the view is ordered. *)
Theorem bounding_box_ordered_and_symmetric (p0 p1 : LatLng) :
  valid_LatLng p0 -> valid_LatLng p1 ->
  (forall b, snd (click p1 (fst (click p0 initial))) = [b] ->
             ordered b /\ snd (click p0 (fst (click p1 initial))) = [b])
  /\ (forall events b,
        Forall App.deliverable events ->
        App.bbox (App.view (App.run events App.boot)) = Some b ->
        ordered b).
Proof.
  intros Hp0 Hp1. split.
  - intros b Hb.
    destruct (click_click p0 p1) as [_ H01].
    destruct (click_click p1 p0) as [_ H10].
    rewrite H01 in Hb. simpl in Hb. injection Hb as <-.
    split; [apply bounds_ordered; assumption|].
    rewrite H10. simpl. rewrite (bounds_comm p1 p0). reflexivity.
  - intros events b Hev Hb.
    pose proof (run_sound events Hev App.boot sound_boot) as [_ Hbox].
    rewrite Hb in Hbox. exact Hbox.
Qed.

End Reachable.

Lemma valid_at (la ln : Z) :
  isNaN (number_of_Z la) = false -> isNaN (number_of_Z ln) = false ->
  valid_LatLng (Examples.at_ la ln).
Proof. intros; split; assumption. Qed.

Lemma bounding_box_ordered_and_symmetric_witness :
  valid_LatLng (Examples.at_ 10 20) /\ valid_LatLng (Examples.at_ 30 5)
  /\ ordered Examples.selected_box
  /\ App.bbox
       (App.view
          (@App.run Examples.runtime
             [App.MapClick (Examples.at_ 30 5);
              App.MapClick (Examples.at_ 10 20)] App.boot))
     = Some Examples.selected_box.
Proof.
  assert (H10 : valid_LatLng (Examples.at_ 10 20))
    by (apply valid_at; reflexivity).
  assert (H30 : valid_LatLng (Examples.at_ 30 5))
    by (apply valid_at; reflexivity).
  split; [exact H10|]. split; [exact H30|].
  destruct (@bounding_box_ordered_and_symmetric Examples.runtime
              (Examples.at_ 10 20) (Examples.at_ 30 5) H10 H30)
    as [Hpair Hrun].
  split; [|reflexivity].
  destruct (Hpair Examples.selected_box eq_refl) as [Hord _].
  exact Hord.
Defined.

(** ** Clicks after completion, and reset *)

Section AfterCompletion.

Import MapSelector.

(** C6.  A click delivered while the selection is complete changes neither
    stored corner, calls [onBoundsChange] zero times, and leaves the whole
    view, its box included, as it was. *)
Theorem click_when_complete_is_ignored
    (e : LatLng) (s : App.State) (b : BoundingBox) :
  selection (App.mapSelector s) = Some (Complete b) ->
  click e (App.mapSelector s) = (App.mapSelector s, [])
  /\ App.mapClick e s = (s, [])
  /\ selection (App.mapSelector (fst (App.mapClick e s))) = Some (Complete b)
  /\ App.bbox (fst (App.mapClick e s)) = App.bbox s.
Proof.
  intros Hc.
  assert (Hclick : click e (App.mapSelector s) = (App.mapSelector s, [])).
  { destruct (selection_Complete _ _ Hc) as (c0 & c1 & ->). reflexivity. }
  assert (Happ : App.mapClick e s = (s, [])).
  { unfold App.mapClick. rewrite Hclick. simpl.
    rewrite setMapSelector_same. reflexivity. }
  rewrite Happ. simpl. auto.
Qed.

Lemma click_when_complete_is_ignored_witness :
  selection (App.mapSelector Examples.selected)
  = Some (Complete Examples.selected_box)
  /\ App.mapClick (Examples.at_ 0 0) Examples.selected
     = (Examples.selected, []).
Proof.
  split; [reflexivity|].
  apply (click_when_complete_is_ignored (Examples.at_ 0 0) Examples.selected
           Examples.selected_box eq_refl).
Defined.

(** C9.  [resetSelection] takes every pair of cells, whatever they hold, to
    the empty selection; a click on the empty selection stores the clicked
    point as the first corner and emits nothing. *)
Theorem reset_then_first_click (st : State) (e : LatLng) :
  resetSelection st = initial
  /\ selection (resetSelection st) = Some Empty
  /\ (forall st0,
        selection st0 = Some Empty ->
        selection (fst (click e st0)) = Some (FirstPointCaptured e)
        /\ snd (click e st0) = [])
  /\ selection (fst (click e (resetSelection st)))
     = Some (FirstPointCaptured e).
Proof.
  assert (Hfirst : selection (fst (click e initial))
                   = Some (FirstPointCaptured e)).
  { simpl. unfold selection. simpl. rewrite point_eta. reflexivity. }
  split; [reflexivity|]. split; [reflexivity|]. split.
  - intros st0 Hempty. apply selection_Empty in Hempty. subst st0.
    split; [exact Hfirst|reflexivity].
  - exact Hfirst.
Qed.

Lemma reset_then_first_click_witness :
  selection initial = Some Empty
  /\ selection (fst (click (Examples.at_ 10 20) initial))
     = Some (FirstPointCaptured (Examples.at_ 10 20)).
Proof.
  split; [reflexivity|].
  destruct (reset_then_first_click (App.mapSelector Examples.selected)
              (Examples.at_ 10 20)) as (_ & _ & Hclick & _).
  exact (proj1 (Hclick initial eq_refl)).
Defined.

End AfterCompletion.

(** ** The generate button and the generation request *)

Lemma eqb_empty (s : string) : (s =? "") = true <-> s = "".
Proof. apply String.eqb_eq. Qed.

Lemma eqb_nonempty (s : string) : (s =? "") = false <-> s <> "".
Proof. apply String.eqb_neq. Qed.

(** C7.  The generate button is disabled exactly when the view holds no
    box, or the output path is the empty string, or a generation is in
    flight. *)
Theorem generate_disabled_iff (s : App.State) :
  App.generate_disabled s = true
  <-> App.bbox s = None \/ App.outputPath s = "" \/ App.isGenerating s = true.
Proof.
  unfold App.generate_disabled. rewrite !orb_true_iff, eqb_empty.
  destruct (App.bbox s) as [b|]; simpl; split.
  - intros [[Hb|Hp]|Hg]; [discriminate|auto|auto].
  - intros [Hb|[Hp|Hg]]; [discriminate|auto|auto].
  - auto.
  - auto.
Qed.

(** C2.  When the view holds no box or the output path is the empty string,
    [generateTerrain] returns the view it was given, shows the alert, and
    issues no command. *)
Theorem generate_without_inputs_only_alerts (s : App.State) :
  App.bbox s = None \/ App.outputPath s = "" ->
  App.generateTerrain s = (s, [App.alert App.precondition_message])
  /\ forall sys,
       App.view sys = s ->
       App.view (App.perform App.generateTerrain sys) = s
       /\ App.outstanding (App.perform App.generateTerrain sys)
          = App.outstanding sys
       /\ App.trace (App.perform App.generateTerrain sys)
          = (App.trace sys ++ [App.alert App.precondition_message])%list.
Proof.
  intros Hpre.
  assert (Hg : App.generateTerrain s
               = (s, [App.alert App.precondition_message])).
  { unfold App.generateTerrain.
    destruct Hpre as [Hb|Hp].
    - rewrite Hb. reflexivity.
    - rewrite Hp. destruct (App.bbox s); reflexivity. }
  split; [exact Hg|].
  intros sys <-. unfold App.perform. rewrite Hg. simpl.
  rewrite app_nil_r. auto.
Qed.

Lemma generate_without_inputs_only_alerts_witness :
  App.bbox App.initial = None
  /\ App.generateTerrain App.initial
     = (App.initial, [App.alert App.precondition_message]).
Proof.
  split; [reflexivity|].
  apply (generate_without_inputs_only_alerts App.initial).
  left; reflexivity.
Defined.

Section Generation.

Context `{Runtime}.

Lemma error_text_has_marker (text : string) :
  includes ("Ошибка: " ++ text) "Ошибка" = true.
Proof. reflexivity. Qed.

Lemma error_text_nonempty (text : string) :
  ("Ошибка: " ++ text =? "") = false.
Proof. reflexivity. Qed.

(** What the view shows for a [result] string. *)
Lemma outcome_of_result (s : App.State) :
  App.outcome s =
    if App.result s =? "" then None
    else if includes (App.result s) "Ошибка"
         then Some (App.Failure (App.result s))
         else Some (App.Success (App.result s)).
Proof.
  unfold App.outcome, App.result_panel.
  destruct (App.result s =? ""); simpl; [reflexivity|].
  destruct (includes (App.result s) "Ошибка"); reflexivity.
Qed.

Lemma outcome_Success_iff (s : App.State) (m : string) :
  App.result s = m ->
  App.outcome s = Some (App.Success m)
  <-> m <> "" /\ includes m "Ошибка" = false.
Proof.
  intros Hr. rewrite outcome_of_result, Hr.
  destruct (m =? "") eqn:He.
  - apply eqb_empty in He. split; [discriminate|]. intros [Hne _].
    contradiction.
  - apply eqb_nonempty in He.
    destruct (includes m "Ошибка"); split.
    + discriminate.
    + intros [_ Hf]; discriminate.
    + auto.
    + reflexivity.
Qed.

Lemma outcome_Failure_of_marked (s : App.State) (text : string) :
  App.result s = "Ошибка: " ++ text ->
  App.outcome s = Some (App.Failure ("Ошибка: " ++ text)).
Proof.
  intros Hr. rewrite outcome_of_result, Hr.
  rewrite error_text_nonempty, error_text_has_marker. reflexivity.
Qed.

(** C1, as the code has it.  With a box and a non-empty output path,
    [generateTerrain] sets [isGenerating], empties [result] (no outcome is
    shown), touches nothing else and issues exactly one [generate_terrain]
    command carrying that box and path.  When the command is fulfilled with
    [m], [result] becomes [m] and [isGenerating] becomes false; the view
    shows [Success m] exactly when [m] is non-empty and does not contain the
    marker.  When it is rejected with [e], [isGenerating] becomes false; if
    [String(e)] is a text, the view shows [Failure] with the marker prefix
    followed by that text, and if the conversion throws, [result] and every
    other cell keep their values. *)
Theorem generate_issues_one_command_and_settles
    (s : App.State) (b : BoundingBox) :
  App.bbox s = Some b -> App.outputPath s <> "" ->
  let s1 := fst (App.generateTerrain s) in
  s1 = App.setResult "" (App.setIsGenerating true s)
  /\ App.isGenerating s1 = true
  /\ App.outcome s1 = None
  /\ snd (App.generateTerrain s)
     = [App.invoke "generate_terrain"
          {| App.args_bbox := b; App.args_outputPath := App.outputPath s |}]
  /\ (forall s' m,
        let s2 := fst (App.generateTerrain_resolved m s') in
        snd (App.generateTerrain_resolved m s') = []
        /\ App.result s2 = m
        /\ App.isGenerating s2 = false
        /\ (App.outcome s2 = Some (App.Success m)
            <-> m <> "" /\ includes m "Ошибка" = false))
  /\ (forall s' e,
        let s2 := fst (App.generateTerrain_rejected e s') in
        snd (App.generateTerrain_rejected e s') = []
        /\ App.isGenerating s2 = false
        /\ (forall text,
              ToString e = Some text ->
              App.outcome s2 = Some (App.Failure ("Ошибка: " ++ text)))
        /\ (ToString e = None -> s2 = App.setIsGenerating false s')).
Proof.
  intros Hb Hp. apply eqb_nonempty in Hp.
  unfold App.generateTerrain. rewrite Hb, Hp. cbn zeta. simpl fst. simpl snd.
  split; [reflexivity|]. split; [reflexivity|]. split; [reflexivity|].
  split; [reflexivity|]. split.
  - intros s' m. cbn zeta. split; [reflexivity|]. split; [reflexivity|].
    split; [reflexivity|]. apply outcome_Success_iff. reflexivity.
  - intros s' e. cbn zeta. unfold App.generateTerrain_rejected.
    destruct (ToString e) as [shown|]; simpl.
    + split; [reflexivity|]. split; [reflexivity|]. split.
      * intros text Htext. injection Htext as <-.
        apply outcome_Failure_of_marked. reflexivity.
      * discriminate.
    + split; [reflexivity|]. split; [reflexivity|]. split.
      * discriminate.
      * reflexivity.
Qed.

End Generation.

Lemma generate_issues_one_command_and_settles_witness :
  App.bbox Examples.selected = Some Examples.selected_box
  /\ App.outputPath Examples.selected <> ""
  /\ snd (App.generateTerrain Examples.selected)
     = [App.invoke "generate_terrain"
          {| App.args_bbox := Examples.selected_box;
             App.args_outputPath := "/home/user/maps" |}]
  /\ App.outcome
       (fst (App.generateTerrain_resolved "OK"
               (fst (App.generateTerrain Examples.selected))))
     = Some (App.Success "OK")
  /\ App.outcome
       (fst (@App.generateTerrain_rejected Examples.runtime
               (JsString "disk full")
               (fst (App.generateTerrain Examples.selected))))
     = Some (App.Failure "Ошибка: disk full").
Proof.
  assert (Hp : App.outputPath Examples.selected <> "") by discriminate.
  split; [reflexivity|]. split; [exact Hp|].
  destruct (@generate_issues_one_command_and_settles Examples.runtime
              Examples.selected Examples.selected_box eq_refl Hp)
    as (_ & _ & _ & Hcmd & Hres & Hrej).
  split; [exact Hcmd|]. split.
  - apply (Hres (fst (App.generateTerrain Examples.selected)) "OK").
    split; [discriminate|reflexivity].
  - destruct (Hrej (fst (App.generateTerrain Examples.selected))
                (JsString "disk full")) as (_ & _ & Hshown & _).
    exact (Hshown "disk full" eq_refl).
Defined.

(** A rejection value that cannot be converted to a string: the [catch]
    block throws, no failure is shown, and the flag is cleared all the
    same. *)
Example rejection_without_text_shows_nothing :
  @ToString Examples.runtime (JsObject [("toString", JsNumber (number_of_Z 1))])
  = None
  /\ (let s2 :=
        fst (@App.generateTerrain_rejected Examples.runtime
               (JsObject [("toString", JsNumber (number_of_Z 1))])
               (App.view Examples.generating)) in
      App.outcome s2 = None /\ App.isGenerating s2 = false).
Proof. repeat split. Qed.

(** C1 as worded fails: a command fulfilled with the empty string leaves no
    outcome at all, and one fulfilled with a message that contains the
    marker is shown as a failure. *)
Lemma fulfilled_message_not_always_success :
  App.bbox Examples.selected = Some Examples.selected_box
  /\ App.outputPath Examples.selected = "/home/user/maps"
  /\ App.outcome
       (fst (App.generateTerrain_resolved ""
               (fst (App.generateTerrain Examples.selected))))
     = None
  /\ App.outcome
       (fst (App.generateTerrain_resolved ""
               (fst (App.generateTerrain Examples.selected))))
     <> Some (App.Success "")
  /\ App.outcome
       (fst (App.generateTerrain_resolved "Ошибка записи"
               (fst (App.generateTerrain Examples.selected))))
     = Some (App.Failure "Ошибка записи").
Proof.
  split; [reflexivity|]. split; [reflexivity|]. split; [reflexivity|].
  split; [discriminate|reflexivity].
Qed.

(** ** Progress events *)

Section Progress.

Context `{Runtime}.

Lemma setProgress_frame (payload : value) (s : App.State) :
  let s' := App.setProgress payload s in
  App.mapSelector s' = App.mapSelector s
  /\ App.bbox s' = App.bbox s
  /\ App.outputPath s' = App.outputPath s
  /\ App.isGenerating s' = App.isGenerating s
  /\ App.result s' = App.result s
  /\ App.outcome s' = App.outcome s.
Proof. cbv zeta. repeat split. Qed.

(** C3, as the code has it.  The listener of the React front-end checks
    nothing: whatever the payload, it becomes the stored progress, every
    other cell and the shown outcome stay as they were, and the handler
    neither alerts nor issues a command.  Only the listener of the plain-DOM
    front-end drops a payload: when [JSON.parse] throws on it (already when
    converting it to a string, or on the text), or yields [null], the
    progress bar keeps its text. *)
Theorem progress_payload_is_stored_unchecked (payload : value) (s : App.State) :
  let s' := fst (App.progressListener payload s) in
  snd (App.progressListener payload s) = []
  /\ App.progress s' = payload
  /\ App.isGenerating s' = App.isGenerating s
  /\ App.result s' = App.result s
  /\ App.outcome s' = App.outcome s
  /\ App.bbox s' = App.bbox s
  /\ App.outputPath s' = App.outputPath s
  /\ App.mapSelector s' = App.mapSelector s
  /\ (forall dom,
        (forall source,
           ToString payload = Some source ->
           JSON_parse source = None \/ JSON_parse source = Some JsNull) ->
        Legacy.bng_progress_listener payload dom = dom).
Proof.
  cbv zeta. simpl fst. simpl snd.
  destruct (setProgress_frame payload s) as (Hsel & Hb & Hp & Hg & Hr & Ho).
  do 8 (split; [first [reflexivity | assumption]|]).
  intros dom Hparse.
  unfold Legacy.bng_progress_listener, Legacy.read_progress.
  destruct (ToString payload) as [source|]; [|reflexivity].
  destruct (Hparse source eq_refl) as [-> | ->]; reflexivity.
Qed.

(** C8.  A well-formed progress event replaces the stored progress and
    nothing else: [isGenerating], [result] and the shown outcome are those
    of the state it arrives in, the handler has no other effect, and the
    progress text renders.  In
    particular, delivered right after the command was fulfilled with [m], it
    leaves [isGenerating] false and [result] equal to [m]. *)
Theorem progress_event_updates_only_progress
    (payload : value) (gp : GenerationProgress.t) (s : App.State) :
  GenerationProgress.decode payload = Some gp ->
  App.progressListener payload s = (App.setProgress payload s, [])
  /\ GenerationProgress.decode (App.progress (App.setProgress payload s))
     = Some gp
  /\ App.isGenerating (App.setProgress payload s) = App.isGenerating s
  /\ App.result (App.setProgress payload s) = App.result s
  /\ App.outcome (App.setProgress payload s) = App.outcome s
  /\ App.progress_text_throws (App.setProgress payload s) = false
  /\ (forall sys m,
        App.outstanding sys <> [] ->
        let late :=
          App.run [App.CommandResolved m; App.ProgressEvent payload] sys in
        App.progress (App.view late) = payload
        /\ App.isGenerating (App.view late) = false
        /\ App.result (App.view late) = m
        /\ App.trace late = App.trace sys).
Proof.
  intros Hdec.
  do 5 (split; [first [reflexivity | exact Hdec]|]).
  split.
  { unfold App.progress_text_throws, App.renderable. simpl App.progress.
    unfold GenerationProgress.decode in Hdec.
    destruct (get payload "stage") as [[]|]; try discriminate.
    destruct (get payload "progress") as [[]|]; try discriminate.
    apply andb_false_r. }
  intros sys m Hout. cbv zeta. unfold App.run. simpl.
  destruct (App.outstanding sys) as [|cmd rest]; [contradiction|].
  simpl. rewrite !app_nil_r. repeat split.
Qed.

End Progress.

Lemma progress_payload_is_stored_unchecked_witness :
  @ToString Examples.runtime (JsString "not json") = Some "not json"
  /\ @JSON_parse Examples.runtime "not json" = None
  /\ @Legacy.bng_progress_listener Examples.runtime (JsString "not json")
       {| Legacy.progressbar := Some "10% - tiles" |}
     = {| Legacy.progressbar := Some "10% - tiles" |}.
Proof.
  split; [reflexivity|]. split; [reflexivity|].
  destruct (@progress_payload_is_stored_unchecked Examples.runtime
              (JsString "not json") App.initial)
    as (_ & _ & _ & _ & _ & _ & _ & _ & Hdrop).
  apply Hdrop. intros source Hsource. injection Hsource as <-.
  left; reflexivity.
Defined.

(** The plain-DOM listener checks the shape no more than the React one: a
    payload that parses to an object without the two fields is shown with
    the defaults. *)
Example legacy_listener_defaults_missing_fields :
  @Legacy.bng_progress_listener Examples.runtime (JsString "{}")
    {| Legacy.progressbar := Some "10% - tiles" |}
  = {| Legacy.progressbar := Some "0% - " |}
  /\ @Legacy.bng_progress_listener Examples.runtime (JsString "{}")
       {| Legacy.progressbar := None |}
     = {| Legacy.progressbar := None |}.
Proof. split; reflexivity. Qed.

(** Stored while a generation is in flight, a payload without a numeric
    [progress] makes the next render throw. *)
Example malformed_payload_breaks_render :
  App.progress_text_throws (App.view Examples.generating) = false
  /\ App.progress_text_throws
       (fst (App.progressListener (JsString "not a record")
               (App.view Examples.generating)))
     = true.
Proof. split; reflexivity. Qed.

(** C3 as worded fails on the React front-end: a payload that is no progress
    record replaces the stored progress. *)
Lemma malformed_payload_replaces_progress :
  GenerationProgress.decode (JsString "not a record") = None
  /\ App.progress App.initial <> JsString "not a record"
  /\ App.progress
       (fst (App.progressListener (JsString "not a record") App.initial))
     = JsString "not a record"
  /\ fst (App.progressListener (JsString "not a record") App.initial)
     <> App.initial.
Proof.
  split; [reflexivity|]. split; [discriminate|]. split; [reflexivity|].
  discriminate.
Qed.

Lemma progress_event_updates_only_progress_witness :
  GenerationProgress.decode Examples.fetching_tiles
  = Some {| GenerationProgress.stage := "fetching tiles";
            GenerationProgress.progress := number_of_Z 42 |}
  /\ App.outstanding Examples.generating <> []
  /\ (let late :=
        @App.run Examples.runtime
          [App.CommandResolved "OK";
           App.ProgressEvent Examples.fetching_tiles] Examples.generating in
      App.progress (App.view late) = Examples.fetching_tiles
      /\ App.isGenerating (App.view late) = false
      /\ App.result (App.view late) = "OK"
      /\ App.trace late = App.trace Examples.generating).
Proof.
  assert (Hout : App.outstanding Examples.generating <> []) by discriminate.
  split; [reflexivity|]. split; [exact Hout|].
  destruct (@progress_event_updates_only_progress Examples.runtime
              Examples.fetching_tiles _ App.initial eq_refl)
    as (_ & _ & _ & _ & _ & _ & Hlate).
  exact (Hlate Examples.generating "OK" Hout).
Defined.

(** ** Reset and the box held by the view *)

Section ResetKeepsBox.

Import MapSelector.

(** C10.  Resetting the selection empties the selector and nothing else: the
    box held by the view, the output path, the in-flight flag and hence the
    state of the generate button are those from before the reset, and no
    callback fires.  A generation started after the reset carries the old
    box.  The first click after the reset still leaves the box in place;
    only the second click replaces it. *)
Theorem reset_keeps_view_box (s : App.State) :
  let s' := fst (App.resetSelection s) in
  snd (App.resetSelection s) = []
  /\ selection (App.mapSelector s') = Some Empty
  /\ App.bbox s' = App.bbox s
  /\ App.outputPath s' = App.outputPath s
  /\ App.isGenerating s' = App.isGenerating s
  /\ App.generate_disabled s' = App.generate_disabled s
  /\ (forall b,
        App.bbox s = Some b -> App.outputPath s <> "" ->
        snd (App.generateTerrain s')
        = [App.invoke "generate_terrain"
             {| App.args_bbox := b;
                App.args_outputPath := App.outputPath s |}])
  /\ (forall e, App.bbox (fst (App.mapClick e s')) = App.bbox s)
  /\ (forall e0 e1,
        App.bbox (fst (App.mapClick e1 (fst (App.mapClick e0 s'))))
        = Some (bounds e0 e1)).
Proof.
  cbv zeta. simpl fst. simpl snd.
  do 6 (split; [reflexivity|]). split; [|split].
  - intros b Hb Hp. apply eqb_nonempty in Hp.
    unfold App.generateTerrain. simpl App.bbox. simpl App.outputPath.
    rewrite Hb, Hp. reflexivity.
  - intros e. reflexivity.
  - intros e0 e1. simpl. unfold bounds. reflexivity.
Qed.

End ResetKeepsBox.

Lemma reset_keeps_view_box_witness :
  App.bbox Examples.selected = Some Examples.selected_box
  /\ App.outputPath Examples.selected <> ""
  /\ App.generate_disabled (fst (App.resetSelection Examples.selected))
     = false
  /\ snd (App.generateTerrain (fst (App.resetSelection Examples.selected)))
     = [App.invoke "generate_terrain"
          {| App.args_bbox := Examples.selected_box;
             App.args_outputPath := "/home/user/maps" |}].
Proof.
  assert (Hp : App.outputPath Examples.selected <> "") by discriminate.
  split; [reflexivity|]. split; [exact Hp|]. split; [reflexivity|].
  destruct (reset_keeps_view_box Examples.selected)
    as (_ & _ & _ & _ & _ & _ & Hgen & _).
  exact (Hgen Examples.selected_box eq_refl Hp).
Defined.

(** * Further properties of the React front-end *)

(** ** Series of clicks *)

Section ClickSeries.

Import MapSelector.

Lemma clicks_cons (p : LatLng) (ps : list LatLng) (st : State)
    (out : list BoundingBox) :
  fold_left
    (fun acc q =>
       let '(st', emitted) := click q (fst acc) in
       (st', (snd acc ++ emitted)%list))
    (p :: ps) (st, out)
  = fold_left
      (fun acc q =>
         let '(st', emitted) := click q (fst acc) in
         (st', (snd acc ++ emitted)%list))
      ps (fst (click p st), (out ++ snd (click p st))%list).
Proof. simpl. destruct (click p st); reflexivity. Qed.

Lemma clicks_on_complete (ps : list LatLng) (c0 c1 : number * number)
    (out : list BoundingBox) :
  fold_left
    (fun acc q =>
       let '(st', emitted) := click q (fst acc) in
       (st', (snd acc ++ emitted)%list))
    ps ({| selectionStart := Some c0; selectionEnd := Some c1 |}, out)
  = ({| selectionStart := Some c0; selectionEnd := Some c1 |}, out).
Proof.
  induction ps as [|p ps IH]; [reflexivity|].
  rewrite clicks_cons. simpl. rewrite app_nil_r. exact IH.
Qed.

Lemma mapClick_on_complete (e : LatLng) (s : App.State) (b : BoundingBox) :
  selection (App.mapSelector s) = Some (Complete b) ->
  App.mapClick e s = (s, []).
Proof.
  intros Hc. destruct (selection_Complete _ _ Hc) as (c0 & c1 & Hsel).
  unfold App.mapClick. rewrite Hsel. simpl. rewrite <- Hsel.
  rewrite setMapSelector_same. reflexivity.
Qed.

Lemma perform_silent (h : App.Handler) (sys : App.System) (s' : App.State) :
  h (App.view sys) = (s', []) ->
  App.perform h sys
  = {| App.view := s'; App.outstanding := App.outstanding sys;
       App.trace := App.trace sys |}.
Proof.
  intros Hh. unfold App.perform. rewrite Hh. simpl.
  rewrite !app_nil_r. reflexivity.
Qed.

Lemma perform_unchanged (h : App.Handler) (sys : App.System) :
  h (App.view sys) = (App.view sys, []) -> App.perform h sys = sys.
Proof.
  intros Hh. rewrite (perform_silent _ _ _ Hh). destruct sys; reflexivity.
Qed.

Lemma run_clicks_on_complete `{Runtime} (ps : list LatLng)
    (sys : App.System) (b : BoundingBox) :
  selection (App.mapSelector (App.view sys)) = Some (Complete b) ->
  App.run (map App.MapClick ps) sys = sys.
Proof.
  intros Hc. induction ps as [|p ps IH]; [reflexivity|].
  simpl. rewrite (perform_unchanged _ _ (mapClick_on_complete p _ b Hc)).
  exact IH.
Qed.

(** X1.  However many clicks follow, the first two decide: the selector keeps
    those two corners, [onBoundsChange] has been called once over the whole
    series, and the view holds the box of the first two points. *)
Theorem first_two_clicks_decide `{Runtime}
    (p0 p1 : LatLng) (rest : list LatLng) (sys : App.System) :
  selection (App.mapSelector (App.view sys)) = Some Empty ->
  Session.clicks (p0 :: p1 :: rest) (App.mapSelector (App.view sys))
  = ({| selectionStart := Some (lat p0, lng p0);
        selectionEnd := Some (lat p1, lng p1) |}, [bounds p0 p1])
  /\ App.bbox
       (App.view (App.run (map App.MapClick (p0 :: p1 :: rest)) sys))
     = Some (bounds p0 p1)
  /\ App.trace (App.run (map App.MapClick (p0 :: p1 :: rest)) sys)
     = App.trace sys.
Proof.
  intros Hempty. apply selection_Empty in Hempty.
  split.
  - rewrite Hempty. unfold Session.clicks.
    rewrite !clicks_cons. simpl. apply clicks_on_complete.
  - destruct sys as [[sel b path gen prog res] out tr].
    simpl in Hempty. subst sel.
    change (map App.MapClick (p0 :: p1 :: rest))
      with (App.MapClick p0 :: App.MapClick p1 :: map App.MapClick rest).
    unfold App.run. cbn [fold_left].
    change (fold_left (fun acc ev => App.step ev acc)
              (map App.MapClick rest))
      with (App.run (map App.MapClick rest)).
    rewrite (run_clicks_on_complete rest _ (bounds p0 p1)).
    + simpl. rewrite !app_nil_r. split; reflexivity.
    + simpl. unfold selection. simpl. rewrite !point_eta. reflexivity.
Qed.

End ClickSeries.

Lemma first_two_clicks_decide_witness :
  MapSelector.selection (App.mapSelector (App.view App.boot))
  = Some MapSelector.Empty
  /\ App.bbox
       (App.view
          (@App.run Examples.runtime
             (map App.MapClick
                [Examples.at_ 10 20; Examples.at_ 30 5; Examples.at_ 0 0;
                 Examples.at_ 50 50]) App.boot))
     = Some Examples.selected_box.
Proof.
  split; [reflexivity|].
  destruct (@first_two_clicks_decide Examples.runtime
              (Examples.at_ 10 20) (Examples.at_ 30 5)
              [Examples.at_ 0 0; Examples.at_ 50 50] App.boot eq_refl)
    as (_ & Hbox & _).
  rewrite Hbox. reflexivity.
Defined.

(** ** What every run keeps *)

Section RunInvariants.

Context `{Runtime}.
Import MapSelector.

Lemma run_invariant (P : App.System -> Prop) :
  (forall ev sys, P sys -> P (App.step ev sys)) ->
  forall events sys, P sys -> P (App.run events sys).
Proof.
  intros Hstep events. induction events as [|ev events IH]; intros sys HP.
  - exact HP.
  - simpl. apply IH. apply Hstep. exact HP.
Qed.

Lemma perform_outstanding (h : App.Handler) (sys : App.System) :
  App.outstanding (App.perform h sys)
  = (App.outstanding sys ++ App.issued (snd (h (App.view sys))))%list.
Proof. unfold App.perform. destruct (h (App.view sys)); reflexivity. Qed.

Lemma perform_trace (h : App.Handler) (sys : App.System) :
  App.trace (App.perform h sys)
  = (App.trace sys ++ snd (h (App.view sys)))%list.
Proof. unfold App.perform. destruct (h (App.view sys)); reflexivity. Qed.

(** The view after one turn, event by event. *)
Lemma step_view (ev : App.Event) (sys : App.System) :
  App.view (App.step ev sys) =
    match ev with
    | App.MapClick e => fst (App.mapClick e (App.view sys))
    | App.ResetClick =>
        if resetButton_rendered (App.mapSelector (App.view sys))
        then fst (App.resetSelection (App.view sys)) else App.view sys
    | App.DirectoryChosen selected =>
        fst (App.selectOutputPath selected (App.view sys))
    | App.GenerateClick =>
        if App.generate_disabled (App.view sys) then App.view sys
        else fst (App.generateTerrain (App.view sys))
    | App.CommandResolved response =>
        match App.outstanding sys with
        | [] => App.view sys
        | _ :: _ => fst (App.generateTerrain_resolved response (App.view sys))
        end
    | App.CommandRejected err =>
        match App.outstanding sys with
        | [] => App.view sys
        | _ :: _ => fst (App.generateTerrain_rejected err (App.view sys))
        end
    | App.ProgressEvent payload =>
        fst (App.progressListener payload (App.view sys))
    end.
Proof.
  destruct ev; simpl.
  - apply perform_view.
  - destruct (resetButton_rendered _); [apply perform_view|reflexivity].
  - apply perform_view.
  - destruct (App.generate_disabled _); [reflexivity|apply perform_view].
  - destruct (App.outstanding sys); reflexivity.
  - destruct (App.outstanding sys); [reflexivity|].
    cbn [App.view]. apply perform_view.
  - reflexivity.
Qed.

Lemma selectOutputPath_cases (selected : value) (s : App.State) :
  (exists p, selected = JsString p /\ p <> ""
             /\ App.selectOutputPath selected s = (App.setOutputPath p s, []))
  \/ ((forall p, selected = JsString p -> p = "")
      /\ App.selectOutputPath selected s = (s, [])).
Proof.
  destruct selected; try (right; split; [intros p Hp; discriminate|reflexivity]).
  unfold App.selectOutputPath. simpl.
  destruct (s0 =? "") eqn:He.
  - right. apply eqb_empty in He. subst. split; [|reflexivity].
    intros p Hp. injection Hp as <-. reflexivity.
  - left. apply eqb_nonempty in He. exists s0. auto.
Qed.

Lemma generateTerrain_cases (s : App.State) :
  (exists b, App.bbox s = Some b /\ App.outputPath s <> ""
     /\ App.generateTerrain s
        = (App.setResult "" (App.setIsGenerating true s),
           [App.invoke "generate_terrain"
              {| App.args_bbox := b;
                 App.args_outputPath := App.outputPath s |}]))
  \/ ((App.bbox s = None \/ App.outputPath s = "")
      /\ App.generateTerrain s = (s, [App.alert App.precondition_message])).
Proof.
  unfold App.generateTerrain.
  destruct (App.bbox s) as [b|]; [|right; auto].
  destruct (App.outputPath s =? "") eqn:He.
  - right. apply eqb_empty in He. auto.
  - left. apply eqb_nonempty in He. exists b. auto.
Qed.

Lemma generate_enabled (s : App.State) :
  App.generate_disabled s = false ->
  App.bbox s <> None /\ App.outputPath s <> "" /\ App.isGenerating s = false.
Proof.
  unfold App.generate_disabled. intros Hd.
  apply orb_false_iff in Hd as [Hd Hg].
  apply orb_false_iff in Hd as [Hb Hp].
  apply eqb_nonempty in Hp.
  destruct (App.bbox s); [|discriminate]. split; [discriminate|]. auto.
Qed.

(** No turn clears the box or the output path. *)
Lemma step_keeps_inputs (ev : App.Event) (sys : App.System) :
  (App.bbox (App.view sys) <> None ->
   App.bbox (App.view (App.step ev sys)) <> None)
  /\ (App.outputPath (App.view sys) <> "" ->
      App.outputPath (App.view (App.step ev sys)) <> "").
Proof.
  rewrite step_view. destruct ev.
  - destruct (App.view sys) as [[[c0|] [c1|]] b path gen prog res]; simpl;
      split; auto; discriminate.
  - destruct (resetButton_rendered _); split; auto.
  - destruct (selectOutputPath_cases selected (App.view sys))
      as [(p & _ & Hp & ->)|(_ & ->)]; simpl; split; auto.
  - destruct (App.generate_disabled _); [split; auto|].
    destruct (generateTerrain_cases (App.view sys))
      as [(b & _ & _ & ->)|(_ & ->)]; simpl; split; auto.
  - destruct (App.outstanding sys); simpl; split; auto.
  - destruct (App.outstanding sys); [split; auto|].
    destruct (generateTerrain_rejected_frame error (App.view sys))
      as (_ & _ & -> & -> & _). split; auto.
  - simpl; split; auto.
Qed.

Lemma step_selector_agrees (ev : App.Event) (sys : App.System) :
  Session.selector_agrees (App.view sys) ->
  Session.selector_agrees (App.view (App.step ev sys)).
Proof.
  rewrite step_view. unfold Session.selector_agrees. destruct ev.
  - destruct (App.view sys) as [[[c0|] [c1|]] b path gen prog res]; simpl;
      intros Hs; try contradiction; auto.
  - destruct (resetButton_rendered _); simpl; auto.
  - destruct (selectOutputPath_cases selected (App.view sys))
      as [(p & _ & Hp & ->)|(_ & ->)]; simpl; auto.
  - destruct (App.generate_disabled _); [auto|].
    destruct (generateTerrain_cases (App.view sys))
      as [(b & _ & _ & ->)|(_ & ->)]; simpl; auto.
  - destruct (App.outstanding sys); simpl; auto.
  - destruct (App.outstanding sys); [auto|].
    destruct (generateTerrain_rejected_frame error (App.view sys))
      as (_ & -> & -> & _). auto.
  - simpl; auto.
Qed.

(** X2.  In every state a run from start-up reaches, the selector's two cells
    have a reading (an end corner is never stored without a start corner),
    and while the selection is complete the box held by the view is the box
    of the two stored corners. *)
Theorem completed_selection_is_the_view_box (events : list App.Event) :
  let s := App.view (App.run events App.boot) in
  selection (App.mapSelector s) <> None
  /\ (forall b,
        selection (App.mapSelector s) = Some (Complete b) ->
        App.bbox s = Some b)
  /\ (resetButton_rendered (App.mapSelector s) = true -> App.bbox s <> None).
Proof.
  cbv zeta.
  assert (Hagree : Session.selector_agrees
                     (App.view (App.run events App.boot))).
  { apply (run_invariant
             (fun sys => Session.selector_agrees (App.view sys))).
    - intros ev sys. apply step_selector_agrees.
    - exact I. }
  unfold Session.selector_agrees in Hagree.
  destruct (App.view (App.run events App.boot))
    as [[[c0|] [c1|]] b path gen prog res]; simpl in *;
    try contradiction; repeat split; try discriminate.
  - intros b0 Hb0. injection Hb0 as <-. exact Hagree.
  - intros _. rewrite Hagree. discriminate.
Qed.

Lemma mapClick_frame (e : LatLng) (s : App.State) :
  let s' := fst (App.mapClick e s) in
  snd (App.mapClick e s) = []
  /\ App.outputPath s' = App.outputPath s
  /\ App.isGenerating s' = App.isGenerating s
  /\ App.progress s' = App.progress s
  /\ App.result s' = App.result s.
Proof.
  destruct s as [[[c0|] [c1|]] b path gen prog res]; simpl; auto.
Qed.

Lemma step_outstanding (ev : App.Event) (sys : App.System) :
  App.outstanding (App.step ev sys) =
    match ev with
    | App.GenerateClick =>
        if App.generate_disabled (App.view sys) then App.outstanding sys
        else (App.outstanding sys
              ++ App.issued (snd (App.generateTerrain (App.view sys))))%list
    | App.CommandResolved _ | App.CommandRejected _ => tl (App.outstanding sys)
    | _ => App.outstanding sys
    end.
Proof.
  destruct ev; simpl.
  - rewrite perform_outstanding.
    destruct (mapClick_frame e (App.view sys)) as [-> _].
    apply app_nil_r.
  - destruct (resetButton_rendered _); [|reflexivity].
    rewrite perform_outstanding. apply app_nil_r.
  - rewrite perform_outstanding.
    destruct (selectOutputPath_cases selected (App.view sys))
      as [(p & _ & Hp & ->)|(_ & ->)]; apply app_nil_r.
  - destruct (App.generate_disabled _); [reflexivity|].
    apply perform_outstanding.
  - destruct (App.outstanding sys) eqn:Ho; [exact Ho|reflexivity].
  - destruct (App.outstanding sys) eqn:Ho; [exact Ho|reflexivity].
  - apply app_nil_r.
Qed.

Lemma step_trace (ev : App.Event) (sys : App.System) :
  App.trace (App.step ev sys) =
    match ev with
    | App.GenerateClick =>
        if App.generate_disabled (App.view sys) then App.trace sys
        else (App.trace sys
              ++ snd (App.generateTerrain (App.view sys)))%list
    | _ => App.trace sys
    end.
Proof.
  destruct ev; simpl.
  - rewrite perform_trace.
    destruct (mapClick_frame e (App.view sys)) as [-> _].
    apply app_nil_r.
  - destruct (resetButton_rendered _); [|reflexivity].
    rewrite perform_trace. apply app_nil_r.
  - rewrite perform_trace.
    destruct (selectOutputPath_cases selected (App.view sys))
      as [(p & _ & Hp & ->)|(_ & ->)]; apply app_nil_r.
  - destruct (App.generate_disabled _); [reflexivity|].
    apply perform_trace.
  - destruct (App.outstanding sys); [reflexivity|]. apply app_nil_r.
  - destruct (App.outstanding sys); [reflexivity|].
    cbn [App.trace]. rewrite perform_trace.
    destruct (generateTerrain_rejected_frame error (App.view sys)) as [-> _].
    apply app_nil_r.
  - apply app_nil_r.
Qed.

Lemma step_isGenerating (ev : App.Event) (sys : App.System) :
  App.isGenerating (App.view (App.step ev sys)) =
    match ev with
    | App.GenerateClick =>
        if App.generate_disabled (App.view sys)
        then App.isGenerating (App.view sys) else true
    | App.CommandResolved _ | App.CommandRejected _ =>
        match App.outstanding sys with
        | [] => App.isGenerating (App.view sys)
        | _ :: _ => false
        end
    | _ => App.isGenerating (App.view sys)
    end.
Proof.
  rewrite step_view. destruct ev.
  - apply mapClick_frame.
  - destruct (resetButton_rendered _); reflexivity.
  - destruct (selectOutputPath_cases selected (App.view sys))
      as [(p & _ & Hp & ->)|(_ & ->)]; reflexivity.
  - destruct (App.generate_disabled _) eqn:Hd; [reflexivity|].
    apply generate_enabled in Hd as (Hb & Hp & _).
    destruct (generateTerrain_cases (App.view sys))
      as [(b & _ & _ & ->)|([Hn|Hn] & _)]; [reflexivity| |]; contradiction.
  - destruct (App.outstanding sys); reflexivity.
  - destruct (App.outstanding sys); [reflexivity|].
    apply generateTerrain_rejected_frame.
  - reflexivity.
Qed.

Lemma step_single_flight (ev : App.Event) (sys : App.System) :
  Session.single_flight sys -> Session.single_flight (App.step ev sys).
Proof.
  unfold Session.single_flight.
  destruct (step_keeps_inputs ev sys) as [Hkb Hkp].
  rewrite step_isGenerating, step_outstanding.
  intros [[Hg Ho]|(Hg & (args & Ho) & Hb & Hp)].
  - destruct ev; try (left; rewrite ?Ho; split; [assumption|reflexivity]).
    + destruct (App.generate_disabled _) eqn:Hd; [left; auto|right].
      apply generate_enabled in Hd as (Hb & Hp & _).
      destruct (generateTerrain_cases (App.view sys))
        as [(b & _ & _ & Hgen)|([Hn|Hn] & _)]; try contradiction.
      rewrite Hgen, Ho. simpl. split; [reflexivity|]. split; [eauto|].
      split; [apply Hkb|apply Hkp]; assumption.
  - destruct ev;
      try (right; split; [assumption|]; split; [eauto|];
           split; [apply Hkb|apply Hkp]; assumption).
    + right. unfold App.generate_disabled. rewrite Hg, orb_true_r.
      split; [reflexivity|]. split; [eauto|].
      split; [apply Hkb|apply Hkp]; assumption.
    + left. rewrite Ho. auto.
    + left. rewrite Ho. auto.
Qed.

(** X3.  Over any run from start-up at most one command is outstanding, and the
    in-flight flag is set exactly while one is. *)
Theorem at_most_one_command_in_flight (events : list App.Event) :
  let sys := App.run events App.boot in
  List.length (App.outstanding sys) <= 1
  /\ (App.isGenerating (App.view sys) = true <-> App.outstanding sys <> []).
Proof.
  cbv zeta.
  assert (Hsf : Session.single_flight (App.run events App.boot)).
  { apply (run_invariant Session.single_flight).
    - exact step_single_flight.
    - left. split; reflexivity. }
  destruct Hsf as [[Hg Ho]|(Hg & (args & Ho) & _)]; rewrite Hg, Ho; simpl.
  - split; [lia|]. split; [discriminate|]. intros Hne; contradiction.
  - split; [lia|]. split; [discriminate|reflexivity].
Qed.

Lemma step_progress (ev : App.Event) (sys : App.System) :
  App.progress (App.view (App.step ev sys)) =
    match ev with
    | App.ProgressEvent payload => payload
    | _ => App.progress (App.view sys)
    end.
Proof.
  rewrite step_view. destruct ev.
  - apply mapClick_frame.
  - destruct (resetButton_rendered _); reflexivity.
  - destruct (selectOutputPath_cases selected (App.view sys))
      as [(p & _ & Hp & ->)|(_ & ->)]; reflexivity.
  - destruct (App.generate_disabled _); [reflexivity|].
    destruct (generateTerrain_cases (App.view sys))
      as [(b & _ & _ & ->)|(_ & ->)]; reflexivity.
  - destruct (App.outstanding sys); reflexivity.
  - destruct (App.outstanding sys); [reflexivity|].
    apply generateTerrain_rejected_frame.
  - reflexivity.
Qed.

(** Once unmounted, always unmounted. *)
Lemma unmounted_run (events : list App.Event) (live : Mounted.Live) :
  Mounted.mounted live = false ->
  Mounted.mounted (Mounted.run events live) = false.
Proof.
  revert live. induction events as [|ev events IH]; intros live Hm;
    [exact Hm|].
  simpl. apply IH. unfold Mounted.step. rewrite Hm.
  destruct ev; simpl; auto.
Qed.

(** As long as the application is mounted, it has handled every event of
    the run: its system is the one the handlers alone produce. *)
Lemma mounted_run_is_run (events : list App.Event) (live : Mounted.Live) :
  Mounted.mounted (Mounted.run events live) = true ->
  Mounted.mounted live = true
  /\ Mounted.system (Mounted.run events live)
     = App.run events (Mounted.system live).
Proof.
  revert live. induction events as [|ev events IH]; intros live Hm;
    [auto|].
  simpl in Hm. destruct (Mounted.mounted live) eqn:Hlive.
  - split; [reflexivity|].
    destruct (IH _ Hm) as [_ Hsys]. simpl. rewrite Hsys.
    unfold Mounted.step. rewrite Hlive. reflexivity.
  - rewrite unmounted_run in Hm; [discriminate|].
    unfold Mounted.step. rewrite Hlive. destruct ev; simpl; auto.
Qed.

(** A run whose progress payloads can all be shown never unmounts. *)
Lemma presentable_run_stays_mounted
    (events : list App.Event) (live : Mounted.Live) :
  Mounted.mounted live = true ->
  App.renderable (App.progress (App.view (Mounted.system live))) = true ->
  Forall Mounted.presentable events ->
  Mounted.run events live
  = {| Mounted.system := App.run events (Mounted.system live);
       Mounted.mounted := true |}.
Proof.
  intros Hm Hr Hev. revert live Hm Hr.
  induction Hev as [|ev events Hp _ IH]; intros live Hm Hr.
  - destruct live as [sys m]. simpl in *. subst m. reflexivity.
  - assert (Hr' : App.renderable
                    (App.progress
                       (App.view (App.step ev (Mounted.system live))))
                  = true).
    { rewrite step_progress. destruct ev; try exact Hr. exact Hp. }
    simpl. rewrite (IH (Mounted.step ev live)).
    + unfold Mounted.step. rewrite Hm. reflexivity.
    + unfold Mounted.step. rewrite Hm. simpl.
      unfold App.progress_text_throws. rewrite Hr'.
      simpl. rewrite andb_false_r. reflexivity.
    + unfold Mounted.step. rewrite Hm. exact Hr'.
Qed.

(** X4.  Whenever a command is outstanding while the application is mounted,
    in a run from start-up with rendering after every turn, its settlement,
    fulfilled or rejected, leaves the application mounted, no command
    outstanding and the generate button enabled. *)
Theorem settlement_enables_generate_again
    (events : list App.Event) (m : string) (e : value) :
  let live := Mounted.run events Mounted.boot in
  Mounted.mounted live = true ->
  App.outstanding (Mounted.system live) <> [] ->
  (let after := Mounted.step (App.CommandResolved m) live in
   Mounted.mounted after = true
   /\ App.generate_disabled (App.view (Mounted.system after)) = false
   /\ App.outstanding (Mounted.system after) = [])
  /\ (let after := Mounted.step (App.CommandRejected e) live in
      Mounted.mounted after = true
      /\ App.generate_disabled (App.view (Mounted.system after)) = false
      /\ App.outstanding (Mounted.system after) = []).
Proof.
  cbv zeta. intros Hm Hout.
  destruct (mounted_run_is_run events Mounted.boot Hm) as [_ Hsys].
  unfold Mounted.step. rewrite Hm. cbn [Mounted.system Mounted.mounted].
  rewrite Hsys in *. change (Mounted.system Mounted.boot) with App.boot in *.
  assert (Hsf : Session.single_flight (App.run events App.boot)).
  { apply (run_invariant Session.single_flight).
    - exact step_single_flight.
    - left. split; reflexivity. }
  destruct Hsf as [[_ Ho]|(_ & (args & Ho) & Hb & Hp)]; [contradiction|].
  assert (Hen : forall s',
             App.bbox s' <> None -> App.outputPath s' <> "" ->
             App.isGenerating s' = false -> App.generate_disabled s' = false).
  { intros s' Hb' Hp' Hg'. unfold App.generate_disabled.
    apply eqb_nonempty in Hp'. rewrite Hp', Hg'.
    destruct (App.bbox s'); [reflexivity|contradiction]. }
  assert (Hsettled : forall ev,
             App.isGenerating (App.view (App.step ev (App.run events App.boot)))
             = false ->
             App.outstanding (App.step ev (App.run events App.boot)) = [] ->
             negb (App.progress_text_throws
                     (App.view (App.step ev (App.run events App.boot))))
             = true
             /\ App.generate_disabled
                  (App.view (App.step ev (App.run events App.boot))) = false
             /\ App.outstanding (App.step ev (App.run events App.boot)) = []).
  { intros ev Hg Hnone. split; [|split; [|exact Hnone]].
    - unfold App.progress_text_throws. rewrite Hg. reflexivity.
    - apply Hen; [apply step_keeps_inputs; assumption
                 |apply step_keeps_inputs; assumption|exact Hg]. }
  split; apply Hsettled;
    rewrite ?step_isGenerating, ?step_outstanding, Ho; reflexivity.
Qed.

Lemma run_keeps_inputs (events : list App.Event) (sys : App.System) :
  (App.bbox (App.view sys) <> None ->
   App.bbox (App.view (App.run events sys)) <> None)
  /\ (App.outputPath (App.view sys) <> "" ->
      App.outputPath (App.view (App.run events sys)) <> "").
Proof.
  revert sys. induction events as [|ev events IH]; intros sys; [auto|].
  simpl. destruct (IH (App.step ev sys)) as [IHb IHp].
  destruct (step_keeps_inputs ev sys) as [Hb Hp]. auto.
Qed.

(** X5.  Nothing ever takes a box or an output path away: once the view holds a
    box it holds one after every later event, and likewise for a non-empty
    output path.  Once both are there, the generate button is disabled
    exactly while a generation is in flight. *)
Theorem inputs_are_never_cleared
    (events : list App.Event) (sys : App.System) :
  App.bbox (App.view sys) <> None ->
  App.outputPath (App.view sys) <> "" ->
  let s' := App.view (App.run events sys) in
  App.bbox s' <> None
  /\ App.outputPath s' <> ""
  /\ App.generate_disabled s' = App.isGenerating s'.
Proof.
  intros Hb Hp. cbv zeta.
  destruct (run_keeps_inputs events sys) as [Hkb Hkp].
  specialize (Hkb Hb). specialize (Hkp Hp).
  split; [exact Hkb|]. split; [exact Hkp|].
  unfold App.generate_disabled. apply eqb_nonempty in Hkp. rewrite Hkp.
  destruct (App.bbox (App.view (App.run events sys)));
    [reflexivity|contradiction].
Qed.

Lemma step_commands_ok (ev : App.Event) (sys : App.System) :
  App.sound (App.view sys) ->
  Forall Session.command_ok (App.trace sys) ->
  Forall Session.command_ok (App.trace (App.step ev sys)).
Proof.
  intros [_ Hbox] Htr. rewrite step_trace.
  destruct ev; try exact Htr.
  destruct (App.generate_disabled _) eqn:Hd; [exact Htr|].
  apply generate_enabled in Hd as (Hb & Hp & _).
  destruct (generateTerrain_cases (App.view sys))
    as [(b & Hsome & _ & ->)|([Hn|Hn] & _)]; try contradiction.
  apply Forall_app. split; [exact Htr|].
  constructor; [|constructor]. simpl.
  rewrite Hsome in Hbox. auto.
Qed.

(** X6.  Over any run from start-up whose clicks carry no NaN, everything done
    to the outside is a [generate_terrain] command with an ordered box and
    a non-empty output path: the precondition alert of [generateTerrain] is
    never shown, because the button that calls it is disabled whenever the
    alert would fire. *)
Theorem only_well_formed_commands_leave (events : list App.Event) :
  Forall App.deliverable events ->
  Forall Session.command_ok (App.trace (App.run events App.boot))
  /\ forall message,
       ~ In (App.alert message) (App.trace (App.run events App.boot)).
Proof.
  intros Hev.
  assert (Hinv : App.sound (App.view (App.run events App.boot))
                 /\ Forall Session.command_ok
                      (App.trace (App.run events App.boot))).
  { assert (Hgen : forall sys,
               App.sound (App.view sys) ->
               Forall Session.command_ok (App.trace sys) ->
               App.sound (App.view (App.run events sys))
               /\ Forall Session.command_ok (App.trace (App.run events sys))).
    { induction Hev as [|ev events Hd _ IH]; intros sys Hs Ht; [auto|].
      simpl. apply IH.
      - apply step_sound; assumption.
      - apply step_commands_ok; assumption. }
    apply Hgen; [apply sound_boot|constructor]. }
  destruct Hinv as [_ Hok]. split; [exact Hok|].
  intros message Hin.
  rewrite Forall_forall in Hok. exact (Hok _ Hin).
Qed.

End RunInvariants.

Lemma settlement_enables_generate_again_witness :
  let events := [App.MapClick (Examples.at_ 10 20);
                 App.MapClick (Examples.at_ 30 5);
                 App.DirectoryChosen (JsString "/home/user/maps");
                 App.GenerateClick;
                 App.ProgressEvent Examples.fetching_tiles] in
  let live := @Mounted.run Examples.runtime events Mounted.boot in
  Mounted.mounted live = true
  /\ App.outstanding (Mounted.system live) <> []
  /\ App.generate_disabled
       (App.view
          (Mounted.system
             (@Mounted.step Examples.runtime
                (App.CommandRejected (JsString "disk full")) live)))
     = false.
Proof.
  cbv zeta.
  set (events := [App.MapClick (Examples.at_ 10 20);
                  App.MapClick (Examples.at_ 30 5);
                  App.DirectoryChosen (JsString "/home/user/maps");
                  App.GenerateClick;
                  App.ProgressEvent Examples.fetching_tiles]).
  assert (Hm : Mounted.mounted
                 (@Mounted.run Examples.runtime events Mounted.boot) = true)
    by reflexivity.
  assert (Hout : App.outstanding
                   (Mounted.system
                      (@Mounted.run Examples.runtime events Mounted.boot))
                 <> []) by discriminate.
  split; [exact Hm|]. split; [exact Hout|].
  destruct (@settlement_enables_generate_again Examples.runtime events
              "OK" (JsString "disk full") Hm Hout) as (_ & _ & Hrej & _).
  exact Hrej.
Defined.

(** A payload that the progress block cannot show, stored while a
    generation is in flight, unmounts the application: nothing is shown any
    more, and neither the settlement of the command nor a later click brings
    anything back. *)
Example malformed_progress_unmounts :
  let events := [App.MapClick (Examples.at_ 10 20);
                 App.MapClick (Examples.at_ 30 5);
                 App.DirectoryChosen (JsString "/home/user/maps");
                 App.GenerateClick;
                 App.ProgressEvent JsNull] in
  let live := @Mounted.run Examples.runtime events Mounted.boot in
  Mounted.mounted live = false
  /\ Mounted.shown live = None
  /\ Mounted.shown
       (@Mounted.run Examples.runtime
          [App.CommandResolved "OK"; App.GenerateClick] live) = None
  /\ App.trace
       (Mounted.system
          (@Mounted.run Examples.runtime
             [App.CommandResolved "OK"; App.GenerateClick] live))
     = App.trace (Mounted.system live).
Proof. repeat split. Qed.

Lemma inputs_are_never_cleared_witness :
  App.bbox (App.view Examples.generating) <> None
  /\ App.outputPath (App.view Examples.generating) <> ""
  /\ App.bbox
       (App.view
          (@App.run Examples.runtime
             [App.ResetClick; App.DirectoryChosen JsNull;
              App.CommandResolved "OK"] Examples.generating))
     <> None.
Proof.
  assert (Hb : App.bbox (App.view Examples.generating) <> None)
    by discriminate.
  assert (Hp : App.outputPath (App.view Examples.generating) <> "")
    by discriminate.
  split; [exact Hb|]. split; [exact Hp|].
  exact (proj1 (@inputs_are_never_cleared Examples.runtime
                  [App.ResetClick; App.DirectoryChosen JsNull;
                   App.CommandResolved "OK"] Examples.generating Hb Hp)).
Defined.

Lemma only_well_formed_commands_leave_witness :
  Forall App.deliverable
    [App.GenerateClick; App.MapClick (Examples.at_ 10 20);
     App.MapClick (Examples.at_ 30 5);
     App.DirectoryChosen (JsString "/home/user/maps"); App.GenerateClick]
  /\ Forall Session.command_ok
       (App.trace
          (@App.run Examples.runtime
             [App.GenerateClick; App.MapClick (Examples.at_ 10 20);
              App.MapClick (Examples.at_ 30 5);
              App.DirectoryChosen (JsString "/home/user/maps");
              App.GenerateClick] App.boot)).
Proof.
  assert (Hev : Forall App.deliverable
                  [App.GenerateClick; App.MapClick (Examples.at_ 10 20);
                   App.MapClick (Examples.at_ 30 5);
                   App.DirectoryChosen (JsString "/home/user/maps");
                   App.GenerateClick]).
  { repeat constructor. }
  split; [exact Hev|].
  exact (proj1 (@only_well_formed_commands_leave Examples.runtime _ Hev)).
Defined.

(** ** Progress events touch nothing but the progress *)

Section Silence.

Context `{Runtime}.

Lemma observe_progress (payload : value) (sys : App.System) :
  Session.observe (App.step (App.ProgressEvent payload) sys)
  = Session.observe sys.
Proof.
  destruct sys as [s out tr]. unfold Session.observe. simpl.
  rewrite !app_nil_r. reflexivity.
Qed.

Lemma observe_step (ev : App.Event) (sys1 sys2 : App.System) :
  Session.observe sys1 = Session.observe sys2 ->
  Session.observe (App.step ev sys1) = Session.observe (App.step ev sys2).
Proof.
  destruct sys1 as [[sel b path gen prog1 res] out tr].
  destruct sys2 as [[sel2 b2 path2 gen2 prog2 res2] out2 tr2].
  unfold Session.observe. simpl. intros Heq.
  injection Heq as <- <- <- <- <- <- <-.
  destruct ev; simpl.
  - destruct sel as [[c0|] [c1|]]; reflexivity.
  - destruct (MapSelector.resetButton_rendered sel); reflexivity.
  - destruct selected; try reflexivity.
    unfold App.selectOutputPath. destruct (ToBoolean (JsString s));
      reflexivity.
  - unfold App.generate_disabled, App.generateTerrain. simpl.
    destruct b, gen, (path =? "") eqn:Hp; simpl; unfold App.perform;
      simpl; rewrite ?Hp; reflexivity.
  - destruct out; reflexivity.
  - destruct out; [reflexivity|].
    unfold App.perform, App.generateTerrain_rejected. simpl.
    destruct (ToString error); reflexivity.
  - reflexivity.
Qed.

Lemma observe_run (events : list App.Event) :
  forall sys1 sys2,
    Session.observe sys1 = Session.observe sys2 ->
    Session.observe (App.run events sys1)
    = Session.observe (App.run (Session.silence events) sys2).
Proof.
  induction events as [|ev events IH]; intros sys1 sys2 Heq; [exact Heq|].
  change (App.run (ev :: events) sys1)
    with (App.run events (App.step ev sys1)).
  destruct ev;
    try (change (Session.silence (?e :: events))
           with (e :: Session.silence events);
         change (App.run (?e :: Session.silence events) sys2)
           with (App.run (Session.silence events) (App.step e sys2));
         apply IH; apply observe_step; exact Heq).
  change (Session.silence (App.ProgressEvent payload :: events))
    with (Session.silence events).
  apply IH. rewrite observe_progress. exact Heq.
Qed.

Lemma silence_presentable (events : list App.Event) :
  Forall Mounted.presentable events ->
  Forall Mounted.presentable (Session.silence events).
Proof.
  intros Hev. apply Forall_forall. intros ev Hin.
  apply filter_In in Hin as [Hin _].
  rewrite Forall_forall in Hev. exact (Hev ev Hin).
Qed.

(** X7.  Progress events whose payloads the progress block can show (every
    record with a string stage and a numeric progress is one) influence
    nothing but the stored progress: in a run of the mounted application,
    with rendering after every turn, dropping all of them leaves the
    application mounted and the selector, the box, the output path, the
    in-flight flag, the result, the outstanding commands and everything done
    to the outside exactly as in the full run. *)
Theorem progress_events_do_not_interfere
    (events : list App.Event) (live : Mounted.Live) :
  Mounted.mounted live = true ->
  App.renderable (App.progress (App.view (Mounted.system live))) = true ->
  Forall Mounted.presentable events ->
  let full := Mounted.run events live in
  let quiet := Mounted.run (Session.silence events) live in
  Mounted.mounted full = true
  /\ Mounted.mounted quiet = true
  /\ App.mapSelector (App.view (Mounted.system full))
     = App.mapSelector (App.view (Mounted.system quiet))
  /\ App.bbox (App.view (Mounted.system full))
     = App.bbox (App.view (Mounted.system quiet))
  /\ App.outputPath (App.view (Mounted.system full))
     = App.outputPath (App.view (Mounted.system quiet))
  /\ App.isGenerating (App.view (Mounted.system full))
     = App.isGenerating (App.view (Mounted.system quiet))
  /\ App.result (App.view (Mounted.system full))
     = App.result (App.view (Mounted.system quiet))
  /\ App.outstanding (Mounted.system full)
     = App.outstanding (Mounted.system quiet)
  /\ App.trace (Mounted.system full) = App.trace (Mounted.system quiet).
Proof.
  intros Hm Hr Hev. cbv zeta.
  rewrite (presentable_run_stays_mounted events live Hm Hr Hev).
  rewrite (presentable_run_stays_mounted (Session.silence events) live Hm Hr
             (silence_presentable events Hev)).
  cbn [Mounted.system Mounted.mounted].
  split; [reflexivity|]. split; [reflexivity|].
  pose proof (observe_run events (Mounted.system live) (Mounted.system live)
                eq_refl) as Hobs.
  unfold Session.observe in Hobs.
  destruct (App.run events (Mounted.system live))
    as [[sel b path gen prog res] out tr].
  destruct (App.run (Session.silence events) (Mounted.system live))
    as [[sel' b' path' gen' prog' res'] out' tr'].
  simpl in *. injection Hobs as -> -> -> -> -> -> ->.
  repeat split.
Qed.

End Silence.

Lemma decodable_is_renderable (payload : value) (gp : GenerationProgress.t) :
  GenerationProgress.decode payload = Some gp ->
  App.renderable payload = true.
Proof.
  unfold GenerationProgress.decode, App.renderable.
  destruct (get payload "stage") as [[]|]; try discriminate;
    destruct (get payload "progress") as [[]|]; try discriminate;
    reflexivity.
Qed.

Lemma progress_events_do_not_interfere_witness :
  let events := [App.MapClick (Examples.at_ 10 20);
                 App.ProgressEvent Examples.fetching_tiles;
                 App.MapClick (Examples.at_ 30 5);
                 App.DirectoryChosen (JsString "/home/user/maps");
                 App.GenerateClick;
                 App.ProgressEvent Examples.fetching_tiles;
                 App.CommandResolved "OK"] in
  Mounted.mounted Mounted.boot = true
  /\ App.renderable (App.progress (App.view (Mounted.system Mounted.boot)))
     = true
  /\ Forall Mounted.presentable events
  /\ App.trace
       (Mounted.system (@Mounted.run Examples.runtime events Mounted.boot))
     = App.trace
         (Mounted.system
            (@Mounted.run Examples.runtime (Session.silence events)
               Mounted.boot)).
Proof.
  cbv zeta.
  set (events := [App.MapClick (Examples.at_ 10 20);
                  App.ProgressEvent Examples.fetching_tiles;
                  App.MapClick (Examples.at_ 30 5);
                  App.DirectoryChosen (JsString "/home/user/maps");
                  App.GenerateClick;
                  App.ProgressEvent Examples.fetching_tiles;
                  App.CommandResolved "OK"]).
  assert (Hev : Forall Mounted.presentable events).
  { repeat constructor. }
  split; [reflexivity|]. split; [reflexivity|]. split; [exact Hev|].
  destruct (@progress_events_do_not_interfere Examples.runtime events
              Mounted.boot eq_refl eq_refl Hev)
    as (_ & _ & _ & _ & _ & _ & _ & _ & Htrace).
  exact Htrace.
Defined.

(** Without that condition the property fails: after a progress payload
    that cannot be shown, the full run is unmounted and issues no second
    command, while the run without progress events issues two. *)
Example unpresentable_progress_interferes :
  let events := [App.MapClick (Examples.at_ 10 20);
                 App.MapClick (Examples.at_ 30 5);
                 App.DirectoryChosen (JsString "/home/user/maps");
                 App.GenerateClick;
                 App.ProgressEvent
                   (JsObject [("stage", JsObject []);
                              ("progress", JsNumber (number_of_Z 42))]);
                 App.CommandResolved "OK";
                 App.GenerateClick] in
  List.length
    (App.trace
       (Mounted.system (@Mounted.run Examples.runtime events Mounted.boot)))
  = 1
  /\ List.length
       (App.trace
          (Mounted.system
             (@Mounted.run Examples.runtime (Session.silence events)
                Mounted.boot)))
     = 2.
Proof. split; reflexivity. Qed.

(** ** The result panel *)

Lemma prefix_iff (a s : string) :
  prefix a s = true <-> exists b, s = a ++ b.
Proof.
  revert s. induction a as [|c a IH]; intros s.
  - split; [intros _; exists s; reflexivity|destruct s; reflexivity].
  - destruct s as [|d s]; simpl.
    + split; [discriminate|intros [b Hb]; discriminate].
    + destruct (ascii_dec c d) as [->|Hne].
      * rewrite IH. split; intros [b Hb]; exists b; congruence.
      * split; [discriminate|intros [b Hb]; congruence].
Qed.

Lemma includes_unfold (s sub : string) :
  includes s sub
  = prefix sub s
    || match s with
       | EmptyString => false
       | String _ rest => includes rest sub
       end.
Proof. destruct s; reflexivity. Qed.

(** [includes] finds exactly the substrings. *)
Lemma includes_iff (s sub : string) :
  includes s sub = true <-> exists a b, s = a ++ sub ++ b.
Proof.
  split.
  - induction s as [|c s IH]; rewrite includes_unfold;
      intros Hi; apply orb_true_iff in Hi as [Hp|Hr].
    + apply prefix_iff in Hp as [b Hb]. exists "", b. exact Hb.
    + discriminate.
    + apply prefix_iff in Hp as [b Hb]. exists "", b. exact Hb.
    + destruct (IH Hr) as (a & b & ->). exists (String c a), b. reflexivity.
  - intros (a & b & ->). induction a as [|c a IH].
    + rewrite includes_unfold. apply orb_true_iff. left.
      apply prefix_iff. exists b. reflexivity.
    + simpl append. rewrite includes_unfold. apply orb_true_iff. right.
      exact IH.
Qed.

(** X8.  The result panel is absent exactly for the empty result, has the error
    class exactly when the marker occurs somewhere in the result, whatever
    surrounds it, and shows the installation notes exactly when it has the
    success class. *)
Theorem result_panel_follows_the_marker (s : App.State) :
  (App.result_panel s = None <-> App.result s = "")
  /\ (App.result_panel s = Some (App.error, App.result s)
      <-> exists a b, App.result s = a ++ "Ошибка" ++ b)
  /\ (Session.mod_info_rendered s = true
      <-> App.result_panel s = Some (App.success, App.result s)).
Proof.
  unfold App.result_panel, Session.mod_info_rendered.
  rewrite <- (includes_iff (App.result s) "Ошибка").
  destruct (App.result s =? "") eqn:He.
  - apply eqb_empty in He. rewrite He. simpl.
    repeat split; try discriminate; auto.
  - apply eqb_nonempty in He. simpl.
    destruct (includes (App.result s) "Ошибка"); simpl;
      repeat split; try discriminate; auto; intros Hc; contradiction.
Qed.

(** ** The directory dialog *)

Lemma selectOutputPath_rejects_cases (selected : value) (s : App.State) :
  (forall p, selected = JsString p -> p = "") ->
  App.selectOutputPath selected s = (s, []).
Proof.
  intros Hsel. destruct selected; try reflexivity.
  rewrite (Hsel s0 eq_refl). reflexivity.
Qed.

(** X9.  Whatever the dialog answers, other than a non-empty string, changes
    nothing: a cancelled dialog ([null]), a list of paths and the empty
    string all leave the view, its output path included, as it was; a
    non-empty string becomes the output path and nothing else changes. *)
Theorem dialog_answer_must_be_a_path (selected : value) (s : App.State) :
  (forall p, selected = JsString p -> p = "") ->
  App.selectOutputPath selected s = (s, [])
  /\ forall p,
       p <> "" ->
       App.selectOutputPath (JsString p) s = (App.setOutputPath p s, [])
       /\ App.selectOutputPath selected
            (fst (App.selectOutputPath (JsString p) s))
          = (App.setOutputPath p s, []).
Proof.
  intros Hsel. split; [apply selectOutputPath_rejects_cases; exact Hsel|].
  intros p Hp.
  assert (Hset : App.selectOutputPath (JsString p) s
                 = (App.setOutputPath p s, [])).
  { unfold App.selectOutputPath. simpl. apply eqb_nonempty in Hp.
    rewrite Hp. reflexivity. }
  split; [exact Hset|]. rewrite Hset. simpl.
  apply selectOutputPath_rejects_cases. exact Hsel.
Qed.

Lemma dialog_answer_must_be_a_path_witness :
  (forall p, JsArray [JsString "/a"; JsString "/b"] = JsString p -> p = "")
  /\ App.selectOutputPath (JsArray [JsString "/a"; JsString "/b"])
       Examples.selected
     = (Examples.selected, [])
  /\ App.selectOutputPath JsNull Examples.selected = (Examples.selected, []).
Proof.
  assert (Harr : forall p,
             JsArray [JsString "/a"; JsString "/b"] = JsString p -> p = "")
    by (intros p Hp; discriminate).
  split; [exact Harr|]. split.
  - exact (proj1 (dialog_answer_must_be_a_path _ Examples.selected Harr)).
  - reflexivity.
Defined.

(** ** [generateTerrain] called past the button *)

(** X10.  [generateTerrain] itself never looks at the in-flight flag: called with
    a box and a path in place it issues a command every time, so two calls
    leave two commands outstanding, and the first settlement clears the
    flag while the second command is still running.  Single flight rests on
    the disabled button alone. *)
Theorem generateTerrain_ignores_in_flight `{Runtime}
    (sys : App.System) (b : BoundingBox) (m : string) :
  App.bbox (App.view sys) = Some b ->
  App.outputPath (App.view sys) <> "" ->
  let args := {| App.args_bbox := b;
                 App.args_outputPath := App.outputPath (App.view sys) |} in
  let once := App.perform App.generateTerrain sys in
  let twice := App.perform App.generateTerrain once in
  App.isGenerating (App.view once) = true
  /\ App.outstanding twice = (App.outstanding sys ++ [args; args])%list
  /\ (App.outstanding sys = [] ->
      let settled := App.step (App.CommandResolved m) twice in
      App.isGenerating (App.view settled) = false
      /\ App.outstanding settled = [args]
      /\ App.generate_disabled (App.view settled) = false).
Proof.
  intros Hb Hp. apply eqb_nonempty in Hp.
  destruct sys as [[sel bb path gen prog res] out tr]. simpl in Hb, Hp.
  subst bb. cbv zeta. unfold App.perform, App.generateTerrain. simpl.
  rewrite Hp. simpl. rewrite Hp. simpl.
  split; [reflexivity|]. split.
  - rewrite <- app_assoc. reflexivity.
  - intros ->. simpl. unfold App.generate_disabled. simpl. rewrite Hp.
    auto.
Qed.

Lemma generateTerrain_ignores_in_flight_witness :
  App.bbox (App.view Examples.generating) = Some Examples.selected_box
  /\ App.outputPath (App.view Examples.generating) <> ""
  /\ List.length
       (App.outstanding
          (App.perform App.generateTerrain Examples.generating)) = 2.
Proof.
  assert (Hp : App.outputPath (App.view Examples.generating) <> "")
    by discriminate.
  split; [reflexivity|]. split; [exact Hp|].
  destruct (@generateTerrain_ignores_in_flight Examples.runtime
              {| App.view := Examples.selected; App.outstanding := [];
                 App.trace := [] |} Examples.selected_box "OK" eq_refl Hp)
    as (_ & Htwice & _).
  change (App.perform App.generateTerrain
            {| App.view := Examples.selected; App.outstanding := [];
               App.trace := [] |}) with Examples.generating in Htwice.
  rewrite Htwice. reflexivity.
Defined.

(** ** The shape of the box *)

Section BoxShape.

Import MapSelector.

Lemma Math_min_same (a : number) : isNaN a = false -> Math_min [a; a] = a.
Proof.
  intros Ha. rewrite (Math_min2 a a Ha Ha), (SFcompare_refl a Ha).
  destruct (is_neg_zero a); reflexivity.
Qed.

Lemma Math_max_same (a : number) : isNaN a = false -> Math_max [a; a] = a.
Proof.
  intros Ha. rewrite (Math_max2 a a Ha Ha), (SFcompare_refl a Ha).
  destruct (is_pos_zero a); reflexivity.
Qed.

Lemma Math_min_NaN_arg (a b : number) :
  isNaN a = true \/ isNaN b = true -> Math_min [a; b] = NaN.
Proof.
  unfold Math_min. simpl. intros [Ha|Hb].
  - rewrite Ha. reflexivity.
  - rewrite Hb. destruct (isNaN a); reflexivity.
Qed.

Lemma Math_max_NaN_arg (a b : number) :
  isNaN a = true \/ isNaN b = true -> Math_max [a; b] = NaN.
Proof.
  unfold Math_max. simpl. intros [Ha|Hb].
  - rewrite Ha. reflexivity.
  - rewrite Hb. destruct (isNaN a); reflexivity.
Qed.

(** X11.  The box emitted on the second click contains both clicked points, and
    each of its four edges passes through one of them. *)
Theorem box_contains_both_clicks (p0 p1 : LatLng) (b : BoundingBox) :
  valid_LatLng p0 -> valid_LatLng p1 ->
  snd (click p1 (fst (click p0 initial))) = [b] ->
  (le (min_lat b) (lat p0) = true /\ le (lat p0) (max_lat b) = true
   /\ le (min_lng b) (lng p0) = true /\ le (lng p0) (max_lng b) = true)
  /\ (le (min_lat b) (lat p1) = true /\ le (lat p1) (max_lat b) = true
      /\ le (min_lng b) (lng p1) = true /\ le (lng p1) (max_lng b) = true)
  /\ (min_lat b = lat p0 \/ min_lat b = lat p1)
  /\ (max_lat b = lat p0 \/ max_lat b = lat p1)
  /\ (min_lng b = lng p0 \/ min_lng b = lng p1)
  /\ (max_lng b = lng p0 \/ max_lng b = lng p1).
Proof.
  intros [Hla0 Hln0] [Hla1 Hln1] Hb.
  destruct (click_click p0 p1) as [_ Hcc]. rewrite Hcc in Hb.
  simpl in Hb. injection Hb as <-. simpl.
  destruct (Math_min2_lower _ _ Hla0 Hla1) as [? ?].
  destruct (Math_min2_lower _ _ Hln0 Hln1) as [? ?].
  destruct (Math_max2_upper _ _ Hla0 Hla1) as [? ?].
  destruct (Math_max2_upper _ _ Hln0 Hln1) as [? ?].
  repeat split; auto;
    auto using Math_min2_choice, Math_max2_choice.
Qed.

(** X12.  Nothing asks the box to have an area.  Two clicks on the same point give
    the box whose four edges are that point's coordinates, and with an
    output path in place the generate button is enabled for it. *)
Theorem same_point_twice_is_accepted (p : LatLng) (s : App.State) :
  valid_LatLng p ->
  selection (App.mapSelector s) = Some Empty ->
  let s2 := fst (App.mapClick p (fst (App.mapClick p s))) in
  App.bbox s2
  = Some {| min_lat := lat p; min_lng := lng p;
            max_lat := lat p; max_lng := lng p |}
  /\ (App.outputPath s <> "" -> App.isGenerating s = false ->
      App.generate_disabled s2 = false).
Proof.
  intros [Hla Hln] Hempty. apply selection_Empty in Hempty.
  destruct s as [sel b path gen prog res]. simpl in Hempty. subst sel.
  cbv zeta. cbn -[Math_min Math_max].
  rewrite (Math_min_same _ Hla), (Math_min_same _ Hln),
    (Math_max_same _ Hla), (Math_max_same _ Hln).
  split; [reflexivity|].
  intros Hp ->. apply eqb_nonempty in Hp.
  unfold App.generate_disabled. cbn. rewrite Hp. reflexivity.
Qed.

(** X13.  A NaN coordinate in either click poisons the box: both edges of that
    axis are NaN and the box is not ordered.  This is why orderedness needs
    clicks without NaN. *)
Theorem NaN_click_gives_unordered_box (p0 p1 : LatLng) :
  isNaN (lat p0) = true \/ isNaN (lat p1) = true ->
  min_lat (bounds p0 p1) = NaN
  /\ max_lat (bounds p0 p1) = NaN
  /\ ~ ordered (bounds p0 p1)
  /\ snd (click p1 (fst (click p0 initial))) = [bounds p0 p1].
Proof.
  intros Hnan.
  split; [exact (Math_min_NaN_arg _ _ Hnan)|].
  split; [exact (Math_max_NaN_arg _ _ Hnan)|]. split.
  - unfold ordered. simpl.
    rewrite (Math_min_NaN_arg _ _ Hnan), (Math_max_NaN_arg _ _ Hnan).
    intros [Hle _]. discriminate.
  - destruct (click_click p0 p1) as [_ ->]. reflexivity.
Qed.

End BoxShape.

Lemma box_contains_both_clicks_witness :
  valid_LatLng (Examples.at_ 10 20) /\ valid_LatLng (Examples.at_ 30 5)
  /\ le (min_lat Examples.selected_box) (lat (Examples.at_ 30 5)) = true.
Proof.
  assert (H10 : valid_LatLng (Examples.at_ 10 20))
    by (apply valid_at; reflexivity).
  assert (H30 : valid_LatLng (Examples.at_ 30 5))
    by (apply valid_at; reflexivity).
  split; [exact H10|]. split; [exact H30|].
  destruct (box_contains_both_clicks (Examples.at_ 10 20)
              (Examples.at_ 30 5) Examples.selected_box H10 H30 eq_refl)
    as (_ & (Hle & _) & _).
  exact Hle.
Defined.

Lemma same_point_twice_is_accepted_witness :
  valid_LatLng (Examples.at_ 10 20)
  /\ App.bbox
       (fst (App.mapClick (Examples.at_ 10 20)
               (fst (App.mapClick (Examples.at_ 10 20) App.initial))))
     = Some {| min_lat := number_of_Z 10; min_lng := number_of_Z 20;
               max_lat := number_of_Z 10; max_lng := number_of_Z 20 |}.
Proof.
  assert (H10 : valid_LatLng (Examples.at_ 10 20))
    by (apply valid_at; reflexivity).
  split; [exact H10|].
  exact (proj1 (same_point_twice_is_accepted (Examples.at_ 10 20)
                  App.initial H10 eq_refl)).
Defined.

Lemma NaN_click_gives_unordered_box_witness :
  isNaN (lat {| lat := NaN; lng := number_of_Z 5 |}) = true
  /\ ~ ordered
         (MapSelector.bounds {| lat := NaN; lng := number_of_Z 5 |}
            (Examples.at_ 10 20)).
Proof.
  split; [reflexivity|].
  destruct (NaN_click_gives_unordered_box
              {| lat := NaN; lng := number_of_Z 5 |} (Examples.at_ 10 20)
              (or_introl eq_refl)) as (_ & _ & Hno & _).
  exact Hno.
Defined.

(** * Properties of the plain-DOM front-end *)

Section LegacyProperties.

Context `{Runtime} `{LegacyPage.Json}.
Import LegacyPage.

Lemma get_truthy (v : value) (key : string) :
  ToBoolean v = true -> exists x, get v key = Some x.
Proof.
  destruct v; simpl; intros Hv; try discriminate; eauto.
Qed.

Lemma legacy_perform_page (h : Handler) (sys : System) :
  page (perform h sys) = fst (h (page sys)).
Proof. unfold perform. destruct (h (page sys)); reflexivity. Qed.

Lemma legacy_perform_outstanding (h : Handler) (sys : System) :
  outstanding (perform h sys)
  = (outstanding sys ++ issued (snd (h (page sys))))%list.
Proof. unfold perform. destruct (h (page sys)); reflexivity. Qed.

Lemma legacy_perform_trace (h : Handler) (sys : System) :
  trace (perform h sys) = (trace sys ++ snd (h (page sys)))%list.
Proof. unfold perform. destruct (h (page sys)); reflexivity. Qed.

Lemma legacy_run_invariant (P : System -> Prop) :
  (forall ev sys, P sys -> P (step ev sys)) ->
  forall events sys, P sys -> P (run events sys).
Proof.
  intros Hstep events. induction events as [|ev events IH]; intros sys HP.
  - exact HP.
  - simpl. apply IH. apply Hstep. exact HP.
Qed.

Lemma send_cases (s : State) :
  genBtn_disabled (fst (send s)) = genBtn_disabled s
  /\ issued (snd (send s)) = []
  /\ filter is_invoke (snd (send s)) = [].
Proof.
  unfold send. destruct (lastBounds s); simpl; auto.
Qed.

Lemma generate_cases (s : State) :
  (ToBoolean (currentBBox s) = false
   /\ generate s = (s, [alert "Select area"]))
  \/ (ToBoolean (currentBBox s) = true
      /\ exists so we no ea,
           get (currentBBox s) "south" = Some so
           /\ get (currentBBox s) "west" = Some we
           /\ get (currentBBox s) "north" = Some no
           /\ get (currentBBox s) "east" = Some ea
           /\ generate s
              = (set_disabled true s,
                 [invoke "generate_map"
                    (JsObject [("south", so); ("west", we);
                               ("north", no); ("east", ea)])])).
Proof.
  unfold generate. destruct (ToBoolean (currentBBox s)) eqn:Hb; simpl.
  - right. split; [reflexivity|].
    destruct (get_truthy _ "south" Hb) as [so Hso].
    destruct (get_truthy _ "west" Hb) as [we Hwe].
    destruct (get_truthy _ "north" Hb) as [no Hno].
    destruct (get_truthy _ "east" Hb) as [ea Hea].
    exists so, we, no, ea. rewrite Hso, Hwe, Hno, Hea. auto.
  - left. auto.
Qed.

(** X14.  [generate] of the plain-DOM front-end: without a truthy [currentBBox]
    it only alerts and leaves the button enabled; with one it disables the
    button and issues exactly one [generate_map] command whose four fields
    are the four properties read off [currentBBox] - reading them never
    throws, and a property the value lacks is sent as [undefined]. *)
Theorem legacy_generate_sends_four_properties (s : State) :
  (ToBoolean (currentBBox s) = false ->
   generate s = (s, [alert "Select area"]))
  /\ (ToBoolean (currentBBox s) = true ->
      fst (generate s) = set_disabled true s
      /\ exists so we no ea,
           snd (generate s)
           = [invoke "generate_map"
                (JsObject [("south", so); ("west", we);
                           ("north", no); ("east", ea)])]
           /\ get (currentBBox s) "south" = Some so
           /\ get (currentBBox s) "west" = Some we
           /\ get (currentBBox s) "north" = Some no
           /\ get (currentBBox s) "east" = Some ea
           /\ ((forall props, currentBBox s <> JsObject props) ->
               so = JsUndefined /\ we = JsUndefined
               /\ no = JsUndefined /\ ea = JsUndefined)).
Proof.
  destruct (generate_cases s)
    as [[Hf Hg]|(Ht & so & we & no & ea & Hso & Hwe & Hno & Hea & Hg)].
  - split; [intros _; exact Hg|]. intros Ht. congruence.
  - split; [intros Hf; congruence|]. intros _. rewrite Hg.
    split; [reflexivity|]. exists so, we, no, ea.
    repeat (split; [first [reflexivity|assumption]|]).
    intros Hno_obj.
    destruct (currentBBox s) as [| | | | | |props]; simpl in *;
      first [ discriminate
            | exfalso; apply (Hno_obj props); reflexivity
            | repeat split; congruence ].
Qed.

Lemma step_legacy_single_flight (ev : Event) (sys : System) :
  single_flight sys -> single_flight (step ev sys).
Proof.
  unfold single_flight. intros Hsf. destruct ev; cbn [step].
  - rewrite legacy_perform_page, legacy_perform_outstanding. simpl.
    rewrite app_nil_r. exact Hsf.
  - rewrite legacy_perform_page, legacy_perform_outstanding.
    destruct (send_cases (page sys)) as (-> & -> & _).
    rewrite app_nil_r. exact Hsf.
  - destruct (genBtn_disabled (page sys)) eqn:Hd;
      [rewrite Hd; exact Hsf|].
    destruct Hsf as [Ho|[Hd' _]]; [|congruence].
    rewrite legacy_perform_page, legacy_perform_outstanding, Ho.
    destruct (generate_cases (page sys))
      as [[_ ->]|(_ & so & we & no & ea & _ & _ & _ & _ & ->)]; simpl.
    + left; reflexivity.
    + right. split; [reflexivity|eauto].
  - unfold settle. destruct Hsf as [Ho|[_ [args Ho]]]; rewrite Ho.
    + left; exact Ho.
    + left; reflexivity.
  - unfold settle. destruct Hsf as [Ho|[_ [args Ho]]]; rewrite Ho.
    + left; exact Ho.
    + left; reflexivity.
  - rewrite legacy_perform_page, legacy_perform_outstanding. simpl.
    rewrite app_nil_r. exact Hsf.
Qed.

Lemma step_stuck (ev : Event) (sys : System) :
  stuck sys ->
  stuck (step ev sys)
  /\ filter is_invoke (trace (step ev sys)) = filter is_invoke (trace sys).
Proof.
  unfold stuck. intros [Hd Ho]. destruct ev; cbn [step].
  - rewrite legacy_perform_page, legacy_perform_outstanding,
      legacy_perform_trace. simpl. rewrite !app_nil_r. auto.
  - rewrite legacy_perform_page, legacy_perform_outstanding,
      legacy_perform_trace, filter_app.
    destruct (send_cases (page sys)) as (-> & -> & ->).
    rewrite !app_nil_r. auto.
  - rewrite Hd. auto.
  - unfold settle. rewrite Ho. auto.
  - unfold settle. rewrite Ho. auto.
  - rewrite legacy_perform_page, legacy_perform_outstanding,
      legacy_perform_trace. simpl. rewrite !app_nil_r. auto.
Qed.

Lemma run_stuck (events : list Event) (sys : System) :
  stuck sys ->
  stuck (run events sys)
  /\ filter is_invoke (trace (run events sys)) = filter is_invoke (trace sys).
Proof.
  revert sys. induction events as [|ev events IH]; intros sys Hs; [auto|].
  simpl. destruct (step_stuck ev sys Hs) as [Hs' Htr].
  destruct (IH _ Hs') as [Hs'' Htr']. split; [exact Hs''|]. congruence.
Qed.

(** X15.  On the page of the plain-DOM front-end at most one command is ever
    outstanding, and the generate button is disabled while one is: the
    property holds after every run from a state in which it holds. *)
Theorem legacy_single_flight (events : list Event) (sys : System) :
  single_flight sys ->
  List.length (outstanding (run events sys)) <= 1
  /\ (outstanding (run events sys) <> [] ->
      genBtn_disabled (page (run events sys)) = true).
Proof.
  intros Hsf.
  assert (Hrun : single_flight (run events sys)).
  { apply (legacy_run_invariant single_flight);
      [exact step_legacy_single_flight|exact Hsf]. }
  destruct Hrun as [Ho|[Hd [args Ho]]]; rewrite Ho; simpl.
  - split; [lia|]. intros Hc; contradiction.
  - split; [lia|]. intros _; exact Hd.
Qed.

(** X16.  [generate] has no [catch]: when its command is rejected the button it
    disabled stays disabled, and since only the last line of a fulfilled
    [generate] enables it again, no later sequence of events does - the page
    issues no further command.  The same happens when the command is
    fulfilled with a value that cannot be converted to a string: the
    concatenation on line 12 throws before line 13.  A command fulfilled
    with a value that has a text shows the alert with that text and enables
    the button. *)
Theorem legacy_rejection_disables_generate_for_good
    (sys : System) (error res : value) (events : list Event) :
  single_flight sys -> outstanding sys <> [] ->
  (let after := run events (step (CommandRejected error) sys) in
   genBtn_disabled (page after) = true
   /\ outstanding after = []
   /\ filter is_invoke (trace after) = filter is_invoke (trace sys))
  /\ (ToString res = None ->
      let after := run events (step (CommandResolved res) sys) in
      genBtn_disabled (page after) = true
      /\ outstanding after = []
      /\ trace (step (CommandResolved res) sys) = trace sys
      /\ filter is_invoke (trace after) = filter is_invoke (trace sys))
  /\ (forall text,
        ToString res = Some text ->
        genBtn_disabled (page (step (CommandResolved res) sys)) = false
        /\ outstanding (step (CommandResolved res) sys) = []
        /\ trace (step (CommandResolved res) sys)
           = (trace sys ++ [alert ("Generated at " ++ text)])%list).
Proof.
  intros Hsf Hout. cbv zeta.
  destruct Hsf as [Ho|[Hd [args Ho]]]; [contradiction|].
  split; [|split].
  - assert (Hstuck : stuck (step (CommandRejected error) sys)).
    { unfold stuck. simpl. unfold settle. rewrite Ho. simpl. auto. }
    destruct (run_stuck events _ Hstuck) as [[Hd' Ho'] Htr].
    split; [exact Hd'|]. split; [exact Ho'|].
    rewrite Htr. simpl. unfold settle. rewrite Ho. simpl.
    rewrite app_nil_r. reflexivity.
  - intros Hnone.
    assert (Hstep : step (CommandResolved res) sys
                    = {| page := page sys; outstanding := [];
                         trace := trace sys |}).
    { cbn [step]. unfold settle, perform, generate_resolved.
      rewrite Ho, Hnone. simpl. rewrite app_nil_r. reflexivity. }
    assert (Hstuck : stuck (step (CommandResolved res) sys)).
    { rewrite Hstep. unfold stuck. simpl. auto. }
    destruct (run_stuck events _ Hstuck) as [[Hd' Ho'] Htr].
    split; [exact Hd'|]. split; [exact Ho'|].
    rewrite Htr, Hstep. simpl. auto.
  - intros text Htext.
    cbn [step]. unfold settle, perform, generate_resolved.
    rewrite Ho, Htext. simpl. auto.
Qed.

(** X17.  What [generate] sends is decided by the send button, not by the
    drawing: after drawing a rectangle and pressing send, [generate] issues
    [generate_map] with exactly the south, west, north and east of that
    rectangle; a rectangle drawn afterwards replaces the drawn layer but is
    not what [generate] sends until send is pressed again. *)
Theorem legacy_send_decides_the_box
    (sys : System) (drawn later : LatLngBounds) :
  genBtn_disabled (page sys) = false ->
  let sent := run [Created drawn; SendClick] sys in
  let redrawn := step (Created later) sent in
  currentBBox (page sent) = bbox_object drawn
  /\ currentBBox (page (step (Created later) sys)) = currentBBox (page sys)
  /\ trace (step GenerateClick sent)
     = (trace sys ++ [invoke "generate_map" (bbox_object drawn)])%list
  /\ drawnItems (page redrawn) = [later]
  /\ trace (step GenerateClick redrawn)
     = (trace sys ++ [invoke "generate_map" (bbox_object drawn)])%list.
Proof.
  intros Hd. destruct sys as [[items last cur dis text doc] out tr].
  simpl in Hd. subst dis. cbv zeta. unfold run. simpl.
  rewrite !app_nil_r. repeat split.
Qed.

(** Pressing send before any rectangle was drawn only alerts. *)
Lemma send_without_rectangle (s : State) :
  lastBounds s = None -> send s = (s, [alert "Draw rectangle"]).
Proof. unfold send. intros ->. reflexivity. Qed.

(** X18.  The progress listener of the plain-DOM front-end writes the text of the
    progress bar and nothing else.  It never creates the element: a page
    without one is left as it is by every payload.  On a page with the
    element, a payload whose text parses to a value [obj] makes the bar
    show [obj.progress || 0], then [% - ], then [obj.text || ''], each
    converted to a string; when one of the two conversions throws, the bar
    keeps its text.  In particular a falsy progress (missing, [null], [0],
    [NaN], the empty string, [false]) with a falsy label shows the number 0
    and an empty label. *)
Theorem legacy_listener_writes_defaults
    (payload : value) (dom : Legacy.Dom) :
  (Legacy.progressbar dom = None ->
   Legacy.bng_progress_listener payload dom = dom)
  /\ (Legacy.progressbar (Legacy.bng_progress_listener payload dom) = None
      <-> Legacy.progressbar dom = None)
  /\ (forall old source obj p0 t0,
        Legacy.progressbar dom = Some old ->
        ToString payload = Some source ->
        JSON_parse source = Some obj ->
        get obj "progress" = Some p0 ->
        get obj "text" = Some t0 ->
        (forall shown_p shown_text,
           ToString (or p0 (JsNumber (number_of_Z 0))) = Some shown_p ->
           ToString (or t0 (JsString "")) = Some shown_text ->
           Legacy.bng_progress_listener payload dom
           = {| Legacy.progressbar :=
                  Some (shown_p ++ "% - " ++ shown_text) |})
        /\ (ToString (or p0 (JsNumber (number_of_Z 0))) = None
            \/ ToString (or t0 (JsString "")) = None ->
            Legacy.bng_progress_listener payload dom = dom)
        /\ (ToBoolean p0 = false -> ToBoolean t0 = false ->
            Legacy.bng_progress_listener payload dom
            = {| Legacy.progressbar :=
                   Some (Number_toString (number_of_Z 0) ++ "% - ") |})).
Proof.
  split; [|split].
  - unfold Legacy.bng_progress_listener. intros ->.
    destruct (Legacy.read_progress payload) as [[p text]|]; reflexivity.
  - unfold Legacy.bng_progress_listener.
    destruct (Legacy.read_progress payload) as [[p text]|];
      [|split; auto].
    destruct dom as [[old|]]; simpl; [|split; auto].
    destruct (ToString p), (ToString text); simpl; split; discriminate.
  - intros old source obj p0 t0 Hbar Hsource Hobj Hp0 Ht0.
    assert (Hread : Legacy.read_progress payload
                    = Some (or p0 (JsNumber (number_of_Z 0)),
                            or t0 (JsString ""))).
    { unfold Legacy.read_progress. rewrite Hsource, Hobj, Hp0, Ht0.
      reflexivity. }
    unfold Legacy.bng_progress_listener. rewrite Hread, Hbar.
    split; [|split].
    + intros shown_p shown_text -> ->. reflexivity.
    + intros [-> | Hnone]; [reflexivity|]. rewrite Hnone.
      destruct (ToString (or p0 (JsNumber (number_of_Z 0)))); reflexivity.
    + intros Hfp Hft. unfold or. rewrite Hfp, Hft. reflexivity.
Qed.

End LegacyProperties.

Lemma legacy_generate_sends_four_properties_witness :
  ToBoolean (LegacyPage.currentBBox (LegacyPage.page Scenarios.loaded))
  = false
  /\ LegacyPage.generate (LegacyPage.page Scenarios.loaded)
     = (LegacyPage.page Scenarios.loaded, [LegacyPage.alert "Select area"]).
Proof.
  split; [reflexivity|].
  exact (proj1 (legacy_generate_sends_four_properties
                  (LegacyPage.page Scenarios.loaded)) eq_refl).
Defined.

Lemma legacy_single_flight_witness :
  LegacyPage.single_flight Scenarios.loaded
  /\ List.length
       (LegacyPage.outstanding
          (@LegacyPage.run Examples.runtime Scenarios.json
             [LegacyPage.Created Scenarios.rectangle; LegacyPage.SendClick;
              LegacyPage.GenerateClick; LegacyPage.GenerateClick]
             Scenarios.loaded)) <= 1.
Proof.
  assert (Hsf : LegacyPage.single_flight Scenarios.loaded)
    by (left; reflexivity).
  split; [exact Hsf|].
  exact (proj1 (@legacy_single_flight Examples.runtime Scenarios.json
                  [LegacyPage.Created Scenarios.rectangle;
                   LegacyPage.SendClick; LegacyPage.GenerateClick;
                   LegacyPage.GenerateClick] Scenarios.loaded Hsf)).
Defined.

Lemma legacy_rejection_disables_generate_for_good_witness :
  let busy :=
    @LegacyPage.run Examples.runtime Scenarios.json
      [LegacyPage.Created Scenarios.rectangle; LegacyPage.SendClick;
       LegacyPage.GenerateClick] Scenarios.loaded in
  LegacyPage.single_flight busy
  /\ LegacyPage.outstanding busy <> []
  /\ LegacyPage.genBtn_disabled
       (LegacyPage.page
          (@LegacyPage.run Examples.runtime Scenarios.json
             [LegacyPage.SendClick; LegacyPage.GenerateClick]
             (@LegacyPage.step Examples.runtime Scenarios.json
                (LegacyPage.CommandRejected (JsString "disk full")) busy)))
     = true.
Proof.
  cbv zeta.
  set (busy := @LegacyPage.run Examples.runtime Scenarios.json
                 [LegacyPage.Created Scenarios.rectangle;
                  LegacyPage.SendClick; LegacyPage.GenerateClick]
                 Scenarios.loaded).
  assert (Hsf : LegacyPage.single_flight busy).
  { right. split; [reflexivity|]. eexists. reflexivity. }
  assert (Hout : LegacyPage.outstanding busy <> []) by discriminate.
  split; [exact Hsf|]. split; [exact Hout|].
  exact (proj1 (proj1 (@legacy_rejection_disables_generate_for_good
                         Examples.runtime Scenarios.json busy
                         (JsString "disk full") JsNull
                         [LegacyPage.SendClick; LegacyPage.GenerateClick]
                         Hsf Hout))).
Defined.

Lemma legacy_send_decides_the_box_witness :
  LegacyPage.genBtn_disabled (LegacyPage.page Scenarios.loaded) = false
  /\ LegacyPage.currentBBox
       (LegacyPage.page
          (@LegacyPage.run Examples.runtime Scenarios.json
             [LegacyPage.Created Scenarios.rectangle; LegacyPage.SendClick]
             Scenarios.loaded))
     = LegacyPage.bbox_object Scenarios.rectangle.
Proof.
  split; [reflexivity|].
  exact (proj1 (@legacy_send_decides_the_box Examples.runtime Scenarios.json
                  Scenarios.loaded Scenarios.rectangle Scenarios.rectangle
                  eq_refl)).
Defined.

Lemma legacy_listener_writes_defaults_witness :
  Legacy.progressbar {| Legacy.progressbar := Some "10% - tiles" |}
  = Some "10% - tiles"
  /\ @ToString Examples.runtime (JsString "{}") = Some "{}"
  /\ @JSON_parse Examples.runtime "{}" = Some (JsObject [])
  /\ @Legacy.bng_progress_listener Examples.runtime (JsString "{}")
       {| Legacy.progressbar := Some "10% - tiles" |}
     = {| Legacy.progressbar := Some "0% - " |}.
Proof.
  split; [reflexivity|]. split; [reflexivity|]. split; [reflexivity|].
  destruct (@legacy_listener_writes_defaults Examples.runtime
              (JsString "{}") {| Legacy.progressbar := Some "10% - tiles" |})
    as (_ & _ & Hwrites).
  destruct (Hwrites "10% - tiles" "{}" (JsObject []) JsUndefined JsUndefined
              eq_refl eq_refl eq_refl eq_refl eq_refl) as (_ & _ & Hdefault).
  exact (Hdefault eq_refl eq_refl).
Defined.

Lemma completed_selection_is_the_view_box_witness :
  MapSelector.selection
    (App.mapSelector
       (App.view
          (@App.run Examples.runtime
             [App.MapClick (Examples.at_ 10 20);
              App.MapClick (Examples.at_ 30 5)] App.boot)))
  = Some (MapSelector.Complete Examples.selected_box)
  /\ App.bbox
       (App.view
          (@App.run Examples.runtime
             [App.MapClick (Examples.at_ 10 20);
              App.MapClick (Examples.at_ 30 5)] App.boot))
     = Some Examples.selected_box.
Proof.
  assert (Hsel : MapSelector.selection
                   (App.mapSelector
                      (App.view
                         (@App.run Examples.runtime
                            [App.MapClick (Examples.at_ 10 20);
                             App.MapClick (Examples.at_ 30 5)] App.boot)))
                 = Some (MapSelector.Complete Examples.selected_box))
    by reflexivity.
  split; [exact Hsel|].
  destruct (@completed_selection_is_the_view_box Examples.runtime
              [App.MapClick (Examples.at_ 10 20);
               App.MapClick (Examples.at_ 30 5)]) as (_ & Hbox & _).
  exact (Hbox Examples.selected_box Hsel).
Defined.
